(** * langmem: short-term memory, [summarize_messages]

    A shallow embedding of [src/langmem/short_term/summarization.py] and the
    properties of the compaction algorithm it implements.

    Python integers are modelled as [Z], Python lists as [list] with the
    indexing and slicing rules of the language written out (negative indices
    count from the end, slices clamp), [None]-able values as [option].  The
    two collaborators that the function calls -- the token counter and the
    summarizer model -- are threaded through an explicit world that records
    every call made to them, the way the test-suite's [MockChatModel] records
    [invoke_calls]. *)

From Stdlib Require Import ZArith Lia.
From stdpp Require Import base tactics option numbers list strings gmap.

Local Open Scope Z_scope.

(** ** Python list primitives *)

Module Py.
Section Lists.
Context {A : Type}.

(** [len(l)] *)
Definition len (l : list A) : Z := Z.of_nat (length l).

(** [l[i]]: a negative index counts from the end; out of range raises
    [IndexError], rendered here as [None]. *)
Definition getitem (l : list A) (i : Z) : option A :=
  if bool_decide (0 <= i) then l !! Z.to_nat i
  else if bool_decide (0 <= len l + i) then l !! Z.to_nat (len l + i)
  else None.

(** Clamping of one slice bound, as [slice.indices] does for step 1. *)
Definition clamp (l : list A) (x : Z) : nat :=
  Z.to_nat (if bool_decide (x < 0) then Z.max 0 (len l + x) else Z.min x (len l)).

(** [l[start:stop]] *)
Definition slice (l : list A) (start stop : Z) : list A :=
  take (clamp l stop - clamp l start)%nat (drop (clamp l start) l).

(** [l[start:]] *)
Definition slice_from (l : list A) (start : Z) : list A :=
  drop (clamp l start) l.

(** [l.pop()] on a non-empty list, keeping the list. *)
Definition pop (l : list A) : list A := removelast l.
End Lists.

(** [range(a, b)] *)
Definition range (a b : Z) : list Z :=
  (fun k : nat => a + Z.of_nat k) <$> seq 0 (Z.to_nat (b - a)).
End Py.

(** ** Data model *)

(** The message classes of [langchain_core.messages] that the function
    distinguishes with [isinstance]. *)
Inductive MessageType := HumanMessage | AIMessage | SystemMessage | ToolMessage.

Global Instance MessageType_eq_dec : EqDecision MessageType.
Proof. solve_decision. Defined.

Record ToolCall := { tool_name : string; tool_call_id : option string }.

Global Instance ToolCall_eq_dec : EqDecision ToolCall.
Proof. solve_decision. Defined.

Record BaseMessage := {
  type : MessageType;
  content : string;
  id : option string;
  (** only an [AIMessage] carries tool calls; empty elsewhere *)
  tool_calls : list ToolCall
}.

Global Instance BaseMessage_eq_dec : EqDecision BaseMessage.
Proof. solve_decision. Defined.

(** [@dataclass SummaryInfo] *)
Record SummaryInfo := {
  summary : string;
  summarized_message_ids : list (option string);
  total_summarized_messages : Z
}.

(** [@dataclass SummarizationResult] *)
Record SummarizationResult := {
  messages : list BaseMessage;
  summary_info : option SummaryInfo
}.

(** The three [ChatPromptTemplate] arguments, each through its [invoke]. *)
Record Templates := {
  initial_summary_prompt : list BaseMessage -> list BaseMessage;
  existing_summary_prompt : list BaseMessage -> string -> list BaseMessage;
  final_prompt : list BaseMessage -> string -> list BaseMessage -> list BaseMessage
}.

Definition human (text : string) : BaseMessage :=
  {| type := HumanMessage; content := text; id := None; tool_calls := [] |}.

Definition system (text : string) : BaseMessage :=
  {| type := SystemMessage; content := text; id := None; tool_calls := [] |}.

Definition newline : string := String (Ascii.ascii_of_nat 10) EmptyString.

(** [DEFAULT_INITIAL_SUMMARY_PROMPT] *)
Definition DEFAULT_INITIAL_SUMMARY_PROMPT (msgs : list BaseMessage) : list BaseMessage :=
  msgs ++ [human "Create a summary of the conversation above:"].

(** [DEFAULT_EXISTING_SUMMARY_PROMPT] *)
Definition DEFAULT_EXISTING_SUMMARY_PROMPT
    (msgs : list BaseMessage) (existing_summary : string) : list BaseMessage :=
  msgs ++ [human ("This is summary of the conversation to date: " +:+ existing_summary
                  +:+ newline +:+ newline
                  +:+ "Extend the summary by taking into account the new messages above:")].

(** [DEFAULT_FINAL_SUMMARY_PROMPT] *)
Definition DEFAULT_FINAL_SUMMARY_PROMPT
    (system_message : list BaseMessage) (summ : string) (msgs : list BaseMessage)
    : list BaseMessage :=
  system_message ++ [system ("Summary of conversation earlier: " +:+ summ)] ++ msgs.

Definition default_templates : Templates :=
  {| initial_summary_prompt := DEFAULT_INITIAL_SUMMARY_PROMPT;
     existing_summary_prompt := DEFAULT_EXISTING_SUMMARY_PROMPT;
     final_prompt := DEFAULT_FINAL_SUMMARY_PROMPT |}.

(** ** Exceptions *)

Inductive Exception :=
  (** [ValueError("`max_summary_tokens` must be less than `max_tokens`.")] *)
  | InvalidConfiguration
  (** [ValueError(f"summarize_messages cannot handle more than
      {max_total_tokens} tokens. ...")] *)
  | BudgetExceeded (max_total_tokens : Z)
  (** list index out of range *)
  | IndexError
  (** whatever the model's [invoke] raised *)
  | ModelError.

Global Instance Exception_eq_dec : EqDecision Exception.
Proof. solve_decision. Defined.

Inductive Outcome (A : Type) :=
  | Return (a : A)
  | Raise (e : Exception).
Arguments Return {A} a.
Arguments Raise {A} e.

(** ** The world: the summarizer model and the call logs *)

Section Compaction.

(** The model is any state machine answering a prompt with a text or an
    exception ([None]); [MockChatModel] of the tests is one instance. *)
Context {ModelState : Type}.
Variable model_invoke : ModelState -> list BaseMessage -> option string * ModelState.

(** [token_counter]: a pure function of the messages it is given. *)
Variable token_counter : list BaseMessage -> Z.

Record World := {
  model_state : ModelState;
  (** prompts the model was invoked with, oldest first *)
  invoke_calls : list (list BaseMessage);
  (** arguments [token_counter] was called with, oldest first *)
  counter_calls : list (list BaseMessage)
}.

(** Computations that read and extend the world and may raise. *)
Definition M (A : Type) : Type := World -> Outcome A * World.

Definition ret {A} (a : A) : M A := fun w => (Return a, w).

Definition raise {A} (e : Exception) : M A := fun w => (Raise e, w).

Definition bind {A B} (m : M A) (k : A -> M B) : M B :=
  fun w => match m w with
           | (Return a, w') => k a w'
           | (Raise e, w') => (Raise e, w')
           end.

Notation "'let*' x ':=' m 'in' k" := (bind m (fun x => k))
  (at level 10, x pattern, m at level 100, k at level 200).

(** [token_counter(msgs)] *)
Definition count_tokens (msgs : list BaseMessage) : M Z :=
  fun w => (Return (token_counter msgs),
            {| model_state := model_state w;
               invoke_calls := invoke_calls w;
               counter_calls := counter_calls w ++ [msgs] |}).

(** [model.invoke(prompt).content] *)
Definition invoke (prompt : list BaseMessage) : M string :=
  fun w =>
    let (response, ms) := model_invoke (model_state w) prompt in
    (match response with Some text => Return text | None => Raise ModelError end,
     {| model_state := ms;
        invoke_calls := invoke_calls w ++ [prompt];
        counter_calls := counter_calls w |}).

(** [messages[i]] inside the computation *)
Definition getitem (msgs : list BaseMessage) (i : Z) : M BaseMessage :=
  match Py.getitem msgs i with
  | Some m => ret m
  | None => raise IndexError
  end.

(** ** [summarize_messages] *)

(** [isinstance(m, SystemMessage)] *)
Definition is_system (m : BaseMessage) : bool := bool_decide (type m = SystemMessage).

(** The condition of the trimming loop on the last message:
    an AI message with tool calls, or a human message. *)
Definition must_drop (m : BaseMessage) : bool :=
  (bool_decide (type m = AIMessage) && negb (bool_decide (tool_calls m = [])))
  || bool_decide (type m = HumanMessage).

(** Lines 139-151: the single pass over [range(total_summarized_messages,
    len(messages))], by recursion on the indices still to visit. *)
Fixpoint scan (msgs : list BaseMessage) (max_tokens max_total_tokens : Z)
    (indices : list Z) (n_tokens idx : Z) : M (Z * Z) :=
  match indices with
  | [] => ret (n_tokens, idx)
  | i :: indices' =>
      let* m := getitem msgs i in
      let* c := count_tokens [m] in
      let n_tokens := n_tokens + c in
      let idx := if bool_decide (n_tokens <= max_tokens) then i else idx in
      if bool_decide (n_tokens >= max_total_tokens)
      then raise (BudgetExceeded max_total_tokens)
      else scan msgs max_tokens max_total_tokens indices' n_tokens idx
  end.

(** Lines 165-172: the [while] loop popping the tail; a list of length n
    leaves the loop after at most n rounds, which is the fuel given. *)
Fixpoint trim_loop (fuel : nat) (messages_to_summarize : list BaseMessage)
    : list BaseMessage :=
  match fuel with
  | O => messages_to_summarize
  | S fuel' =>
      match last messages_to_summarize with
      | Some m =>
          if must_drop m then trim_loop fuel' (Py.pop messages_to_summarize)
          else messages_to_summarize
      | None => messages_to_summarize
      end
  end.

Definition trim (messages_to_summarize : option (list BaseMessage))
    : option (list BaseMessage) :=
  (fun l => trim_loop (length l) l) <$> messages_to_summarize.

(** Lines 106-114: the system message, the messages left, the budget left. *)
Definition carve_out (msgs : list BaseMessage) (max_tokens : Z)
    : M (option BaseMessage * list BaseMessage * Z) :=
  match msgs with
  | m0 :: rest =>
      if is_system m0
      then let* c := count_tokens [m0] in ret (Some m0, rest, max_tokens - c)
      else ret (None, msgs, max_tokens)
  | [] => ret (None, msgs, max_tokens)
  end.

(** [messages if existing_system_message is None
     else [existing_system_message] + messages] *)
Definition reattach (existing_system_message : option BaseMessage)
    (msgs : list BaseMessage) : list BaseMessage :=
  match existing_system_message with
  | None => msgs
  | Some s => [s] ++ msgs
  end.

(** Lines 155-158 *)
Definition select (msgs : list BaseMessage) (total_summarized_messages : Z)
    (n_tokens idx max_tokens : Z) : option (list BaseMessage) :=
  if bool_decide (n_tokens <= max_tokens) then None
  else Some (Py.slice msgs total_summarized_messages (idx + 1)).

(** Lines 126-172: the scan, the candidate slice and its trimming; the
    value is [messages_to_summarize] as line 174 finds it. *)
Definition to_summarize (msgs : list BaseMessage)
    (total_summarized_messages max_tokens max_summary_tokens : Z)
    : M (option (list BaseMessage)) :=
  let n_tokens := 0 in
  let idx := Z.max 0 (total_summarized_messages - 1) in
  let max_total_tokens := max_tokens * 2 - max_summary_tokens in
  let* (n_tokens, idx) :=
    scan msgs max_tokens max_total_tokens
         (Py.range total_summarized_messages (Py.len msgs)) n_tokens idx in
  ret (trim (select msgs total_summarized_messages n_tokens idx max_tokens)).

(** [[existing_system_message] if existing_system_message else []] *)
Definition system_placeholder (existing_system_message : option BaseMessage)
    : list BaseMessage :=
  match existing_system_message with Some m => [m] | None => [] end.

(** Lines 175-189: the prompt sent to the model. *)
Definition summary_prompt (templates : Templates)
    (existing_summary_info : option SummaryInfo)
    (messages_to_summarize : list BaseMessage) : list BaseMessage :=
  match existing_summary_info with
  | Some s => existing_summary_prompt templates messages_to_summarize (summary s)
  | None => initial_summary_prompt templates messages_to_summarize
  end.

(** Lines 199-225: the result, from the summary info in force. *)
Definition assemble (templates : Templates)
    (existing_system_message : option BaseMessage) (msgs : list BaseMessage)
    (summary_info : option SummaryInfo) (total_summarized_messages : Z)
    : SummarizationResult :=
  match summary_info with
  | Some s =>
      {| summary_info := Some s;
         messages :=
           final_prompt templates
             (system_placeholder existing_system_message)
             (summary s)
             (Py.slice_from msgs total_summarized_messages) |}
  | None =>
      {| summary_info := None;
         messages := reattach existing_system_message msgs |}
  end.

Definition summarize_messages
    (msgs : list BaseMessage)
    (existing_summary_info : option SummaryInfo)
    (max_tokens max_summary_tokens : Z)
    (templates : Templates) : M SummarizationResult :=
  if bool_decide (max_summary_tokens >= max_tokens) then raise InvalidConfiguration
  else
    let* (existing_system_message, msgs, max_tokens) := carve_out msgs max_tokens in
    match msgs with
    | [] =>
        ret {| summary_info := existing_summary_info;
               messages := reattach existing_system_message msgs |}
    | _ :: _ =>
        let summary_info := existing_summary_info in
        let total_summarized_messages :=
          match summary_info with
          | Some s => total_summarized_messages s
          | None => 0
          end in
        let* messages_to_summarize :=
          to_summarize msgs total_summarized_messages max_tokens max_summary_tokens in
        let* (summary_info, total_summarized_messages) :=
          match messages_to_summarize with
          | Some ((_ :: _) as messages_to_summarize) =>
              let summary_messages :=
                summary_prompt templates existing_summary_info messages_to_summarize in
              let* response := invoke summary_messages in
              let total_summarized_messages :=
                total_summarized_messages + Py.len messages_to_summarize in
              ret (Some {| summary := response;
                           summarized_message_ids := id <$> messages_to_summarize;
                           total_summarized_messages := total_summarized_messages |},
                   total_summarized_messages)
          | _ => ret (summary_info, total_summarized_messages)
          end in
        ret (assemble templates existing_system_message msgs
               summary_info total_summarized_messages)
    end.

(** *** The pure reading of the first lines *)

(** The number of messages summarized so far (line 127). *)
Definition count_of (existing_summary_info : option SummaryInfo) : Z :=
  match existing_summary_info with
  | Some s => total_summarized_messages s
  | None => 0
  end.

(** What [carve_out] reserves, leaves and charges. *)
Definition system_of (msgs : list BaseMessage) : option BaseMessage :=
  match msgs with
  | m0 :: _ => if is_system m0 then Some m0 else None
  | [] => None
  end.

Definition working_of (msgs : list BaseMessage) : list BaseMessage :=
  match msgs with
  | m0 :: rest => if is_system m0 then rest else msgs
  | [] => []
  end.

Definition budget_of (msgs : list BaseMessage) (max_tokens : Z) : Z :=
  match system_of msgs with
  | Some m0 => max_tokens - token_counter [m0]
  | None => max_tokens
  end.

(** Cost of one message, as the scan charges it. *)
Definition cost (m : BaseMessage) : Z := token_counter [m].

Definition total_cost (l : list BaseMessage) : Z :=
  foldr (fun m acc => cost m + acc) 0 l.

(** The world after [token_counter] was called on each of [calls]. *)
Definition logged (w : World) (calls : list (list BaseMessage)) : World :=
  {| model_state := model_state w;
     invoke_calls := invoke_calls w;
     counter_calls := counter_calls w ++ calls |}.

(** The world after the model answered [prompt] and moved to [ms]. *)
Definition invoked (w : World) (prompt : list BaseMessage) (ms : ModelState) : World :=
  {| model_state := ms;
     invoke_calls := invoke_calls w ++ [prompt];
     counter_calls := counter_calls w |}.

(** The counter call made by [carve_out]. *)
Definition carve_log (msgs : list BaseMessage) : list (list BaseMessage) :=
  match system_of msgs with Some m0 => [[m0]] | None => [] end.

(** The summary info a successful generation builds (lines 192-197). *)
Definition extended (existing_summary_info : option SummaryInfo)
    (messages_to_summarize : list BaseMessage) (response : string) : SummaryInfo :=
  {| summary := response;
     summarized_message_ids := id <$> messages_to_summarize;
     total_summarized_messages :=
       count_of existing_summary_info + Py.len messages_to_summarize |}.

(** The courses one call can take. *)
Inductive Run (msgs : list BaseMessage) (existing_summary_info : option SummaryInfo)
    (max_tokens max_summary_tokens : Z) (templates : Templates) (w : World)
    : Outcome SummarizationResult -> World -> Prop :=
  | run_invalid
      (Hconfig : max_summary_tokens >= max_tokens) :
      Run msgs existing_summary_info max_tokens max_summary_tokens templates w
        (Raise InvalidConfiguration) w
  | run_empty
      (Hconfig : max_summary_tokens < max_tokens)
      (Hwork : working_of msgs = []) :
      Run msgs existing_summary_info max_tokens max_summary_tokens templates w
        (Return {| summary_info := existing_summary_info;
                   messages := reattach (system_of msgs) [] |})
        (logged w (carve_log msgs))
  | run_raise e calls
      (Hconfig : max_summary_tokens < max_tokens)
      (Hwork : working_of msgs <> [])
      (Hchoice : forall w0,
         to_summarize (working_of msgs) (count_of existing_summary_info)
           (budget_of msgs max_tokens) max_summary_tokens w0
         = (Raise e, logged w0 calls)) :
      Run msgs existing_summary_info max_tokens max_summary_tokens templates w
        (Raise e) (logged w (carve_log msgs ++ calls))
  | run_pass choice calls
      (Hconfig : max_summary_tokens < max_tokens)
      (Hwork : working_of msgs <> [])
      (Hchoice : forall w0,
         to_summarize (working_of msgs) (count_of existing_summary_info)
           (budget_of msgs max_tokens) max_summary_tokens w0
         = (Return choice, logged w0 calls))
      (Hnothing : choice = None \/ choice = Some []) :
      Run msgs existing_summary_info max_tokens max_summary_tokens templates w
        (Return (assemble templates (system_of msgs) (working_of msgs)
                   existing_summary_info (count_of existing_summary_info)))
        (logged w (carve_log msgs ++ calls))
  | run_summarize messages_to_summarize calls response ms
      (Hconfig : max_summary_tokens < max_tokens)
      (Hwork : working_of msgs <> [])
      (Hchoice : forall w0,
         to_summarize (working_of msgs) (count_of existing_summary_info)
           (budget_of msgs max_tokens) max_summary_tokens w0
         = (Return (Some messages_to_summarize), logged w0 calls))
      (Hsome : messages_to_summarize <> [])
      (Hmodel :
         model_invoke (model_state (logged w (carve_log msgs ++ calls)))
           (summary_prompt templates existing_summary_info messages_to_summarize)
         = (response, ms)) :
      Run msgs existing_summary_info max_tokens max_summary_tokens templates w
        (match response with
         | Some text =>
             Return (assemble templates (system_of msgs) (working_of msgs)
                       (Some (extended existing_summary_info messages_to_summarize text))
                       (count_of existing_summary_info + Py.len messages_to_summarize))
         | None => Raise ModelError
         end)
        (invoked (logged w (carve_log msgs ++ calls))
           (summary_prompt templates existing_summary_info messages_to_summarize) ms).

(** *** Notions the properties are stated with *)

(** One reading of the loop's result: what is kept, what was popped. *)
Inductive Trimmed (candidate kept : list BaseMessage) : Prop :=
  | trimmed (popped : list BaseMessage)
      (Hsplit : candidate = kept ++ popped)
      (Hpopped : Forall (fun m => must_drop m = true) popped)
      (Hstop : kept = [] \/ exists m, last kept = Some m /\ must_drop m = false).

(** Every running total over [l], started at [n_tokens], stays under the
    ceiling. *)
Fixpoint below_ceiling (max_total_tokens n_tokens : Z) (l : list BaseMessage) : Prop :=
  match l with
  | [] => True
  | m :: l' =>
      n_tokens + cost m < max_total_tokens
      /\ below_ceiling max_total_tokens (n_tokens + cost m) l'
  end.

(** The cutoff index the scan leaves, for [l] sitting at index [i]. *)
Fixpoint cutoff (max_tokens : Z) (l : list BaseMessage) (i n_tokens idx : Z) : Z :=
  match l with
  | [] => idx
  | m :: l' =>
      cutoff max_tokens l' (i + 1) (n_tokens + cost m)
        (if bool_decide (n_tokens + cost m <= max_tokens) then i else idx)
  end.

(** One counter call per message. *)
Definition singles (l : list BaseMessage) : list (list BaseMessage) :=
  (fun m => [m]) <$> l.

(** The outcome does not depend on the world, the model is left alone and
    the counter log grows by a list fixed in advance. *)
Definition counts_only {A} (m : M A) : Prop :=
  exists (o : Outcome A) calls, forall w, m w = (o, logged w calls).

(** The scan starts at index [start] of the messages left after the system
    message: the first counter call after the one for the system message is
    on the message at that index. *)
Definition scan_starts_at (start : Z)
    (msgs : list BaseMessage) (info : option SummaryInfo)
    (max_tokens max_summary_tokens : Z) (templates : Templates) (w : World) : Prop :=
  exists m calls,
    Py.getitem (working_of msgs) start = Some m
    /\ counter_calls
         (summarize_messages msgs info max_tokens max_summary_tokens templates w).2
       = counter_calls w ++ carve_log msgs ++ [m] :: calls.

(** Calling again with the returned summary info changes nothing: same
    result, and the model's log as the first call left it. *)
Definition idempotent_at (msgs : list BaseMessage) (info : option SummaryInfo)
    (max_tokens max_summary_tokens : Z) (templates : Templates) (w : World) : Prop :=
  forall r1 w1,
    summarize_messages msgs info max_tokens max_summary_tokens templates w
    = (Return r1, w1) ->
    exists w2,
      summarize_messages msgs (summary_info r1) max_tokens max_summary_tokens templates w1
      = (Return r1, w2)
      /\ invoke_calls w2 = invoke_calls w1.

End Compaction.

Arguments model_state {ModelState} w.
Arguments invoke_calls {ModelState} w.
Arguments counter_calls {ModelState} w.

(** ** The collaborators of the test-suite *)

(** [MockChatModel]: answers with [responses[response_index % len(responses)]]
    and moves on; the state is [response_index]. *)
Definition MockChatModel (responses : list string)
    (response_index : nat) (prompt : list BaseMessage) : option string * nat :=
  (Some (default "This is a mock summary."
           (responses !! (response_index mod length responses)%nat)),
   S response_index).

(** [token_counter=len] *)
Definition len_counter (msgs : list BaseMessage) : Z := Py.len msgs.

Definition fresh : World :=
  {| model_state := 0%nat; invoke_calls := []; counter_calls := [] |}.

Definition Human (text ident : string) : BaseMessage :=
  {| type := HumanMessage; content := text; id := Some ident; tool_calls := [] |}.

Definition AI (text ident : string) : BaseMessage :=
  {| type := AIMessage; content := text; id := Some ident; tool_calls := [] |}.

(** A counter in the manner of approximate counting: the characters of the
    contents. *)
Definition char_counter (msgs : list BaseMessage) : Z :=
  foldr (fun m acc => Z.of_nat (String.length (content m)) + acc) 0 msgs.

(** The messages of [test_summarize_first_time]; the other lists below are
    those of the tests named, given ids for the record. *)
Definition nine_messages : list BaseMessage :=
  [ Human "Message 1" "1"; AI "Response 1" "2";
    Human "Message 2" "3"; AI "Response 2" "4";
    Human "Message 3" "5"; AI "Response 3" "6";
    Human "Message 4" "7"; AI "Response 4" "8";
    Human "Latest message" "9" ].

Definition first_time_model := MockChatModel ["This is a summary of the conversation."].

(** The messages of [test_with_system_message]. *)
Definition helpful_assistant : BaseMessage := system "You are a helpful assistant.".

Definition with_system_message : list BaseMessage :=
  helpful_assistant :: nine_messages.

(** The messages of [test_only_summarize_new_messages], second call, and the
    summary info the first call of that test returns. *)
Definition thirteen_messages : list BaseMessage :=
  [ Human "Message 1" "1"; AI "Response 1" "2";
    Human "Message 2" "3"; AI "Response 2" "4";
    Human "Message 3" "5"; AI "Response 3" "6";
    Human "Latest message 1" "7";
    AI "Response to latest 1" "8";
    Human "Message 4" "9"; AI "Response 4" "10";
    Human "Message 5" "11"; AI "Response 5" "12";
    Human "Latest message 2" "13" ].

Definition first_summary : SummaryInfo :=
  {| summary := "First summary of the conversation.";
     summarized_message_ids := [Some "1"; Some "2"; Some "3"; Some "4"; Some "5"; Some "6"];
     total_summarized_messages := 6 |}.

Definition two_summaries_model :=
  MockChatModel ["First summary of the conversation.";
                 "Updated summary including only new messages."].

(** The world after the first call of that test. *)
Definition after_first_summary : @World nat :=
  {| model_state := 1%nat; invoke_calls := []; counter_calls := [] |}.

(** An answer followed by questions left open, then an answer again. *)
Definition open_questions : list BaseMessage :=
  [ AI "Welcome" "1"; Human "Question 1" "2"; Human "Question 2" "3";
    AI "Answer" "4"; Human "Question 3" "5" ].

(** Three answers, two of them summarized already. *)
Definition three_answers : list BaseMessage :=
  [ AI "first" "1"; AI "second" "2"; AI "third" "3" ].

Definition two_summarized : SummaryInfo :=
  {| summary := "first and second";
     summarized_message_ids := [Some "1"; Some "2"];
     total_summarized_messages := 2 |}.

(** A single message that alone is past twice the budget of six tokens. *)
Definition long_message : BaseMessage :=
  Human "A message of more than a dozen characters" "1".

(** What the calls replayed below return, and the worlds they leave. *)
Definition undefined_result : SummarizationResult :=
  {| messages := []; summary_info := None |}.

Definition returned (o : Outcome SummarizationResult) : SummarizationResult :=
  match o with Return r => r | Raise _ => undefined_result end.

Definition first_time_call :=
  summarize_messages first_time_model len_counter
    nine_messages None 6 0 default_templates fresh.

Definition first_time_result : SummarizationResult :=
  Eval vm_compute in returned first_time_call.1.

Definition first_time_world : @World nat := Eval vm_compute in first_time_call.2.

Definition second_summary_call :=
  summarize_messages two_summaries_model len_counter
    thirteen_messages (Some first_summary) 6 0 default_templates after_first_summary.

Definition second_summary_result : SummarizationResult :=
  Eval vm_compute in returned second_summary_call.1.

Definition second_summary_world : @World nat := Eval vm_compute in second_summary_call.2.

Definition system_message_call :=
  summarize_messages (MockChatModel ["Summary with system message present."])
    len_counter with_system_message None 6 0 default_templates fresh.

Definition system_message_result : SummarizationResult :=
  Eval vm_compute in returned system_message_call.1.

Definition system_message_world : @World nat := Eval vm_compute in system_message_call.2.

(** ** [SummarizationNode] *)

(** The node reads its input dynamically.  The values it can meet are told
    apart as far as the code tells them apart.  Of a value that is neither
    [None], a list of messages nor a dict, all that line 269 asks is whether
    it has an attribute [get]: [has_get] records it.  Without one (an int, a
    string, a model with no such field) [context.get] raises an attribute
    error, as it does on [None] and on a list.  What the [get] of a foreign
    object returns is not in the source, nor is what [summarize_messages]
    does with messages that are no list or with a ["summary_info"] that is no
    summary info ([OtherEntry]): [_func] is [None] in these three cases
    only. *)
Inductive ContextEntry :=
  | SummaryEntry (s : SummaryInfo)
  | NoneEntry
  | OtherEntry (repr : string).

Inductive Value :=
  | NoneValue
  | MessagesValue (l : list BaseMessage)
  | DictValue (d : gmap string ContextEntry)
  | OtherValue (repr : string) (has_get : bool).

(** [dict[str, Any] | BaseModel], or anything else. *)
Inductive Input :=
  | DictInput (d : gmap string Value)
  | ModelInput (attributes : gmap string Value)
  | OtherInput.

Inductive NodeException :=
  (** [ValueError(f"Invalid input type: {type(input)}")] *)
  | InvalidInputType
  (** [ValueError("Missing required field `messages` in the input.")] *)
  | MissingMessages
  (** [context.get] on a context that has no [get] *)
  | AttributeError
  (** an exception of [summarize_messages], passed on *)
  | Raised (e : Exception).

Inductive NodeOutcome :=
  | Update (state_update : gmap string Value)
  | Failure (e : NodeException).

Module SummarizationNode.

(** The attributes [__init__] stores, the model and the token counter apart. *)
Record t := {
  max_tokens : Z;
  max_summary_tokens : Z;
  templates : Templates;
  messages_key : string;
  output_messages_key : string
}.

(** The defaults of [__init__]. *)
Definition init (max_tokens : Z) : t :=
  {| max_tokens := max_tokens;
     max_summary_tokens := 1;
     templates := default_templates;
     messages_key := "messages";
     output_messages_key := "messages" |}.

(** Lines 255-262: what [input.get] and [getattr] with a default read. *)
Definition fields (input : Input) : option (gmap string Value) :=
  match input with
  | DictInput d => Some d
  | ModelInput attributes => Some attributes
  | OtherInput => None
  end.

(** Lines 279-285 *)
Definition state_update (self : t) (context : gmap string ContextEntry)
    (summarization_result : SummarizationResult) : gmap string Value :=
  let state_update : gmap string Value :=
    {[ output_messages_key self := MessagesValue (messages summarization_result) ]} in
  match summary_info summarization_result with
  | Some s =>
      <[ "context" := DictValue (<[ "summary_info" := SummaryEntry s ]> context) ]>
        state_update
  | None => state_update
  end.

Section Func.
Context {ModelState : Type}.
Variable model : ModelState -> list BaseMessage -> option string * ModelState.
Variable token_counter : list BaseMessage -> Z.

(** Lines 267-285, for messages and a context of the expected kinds. *)
Definition call (self : t) (msgs : list BaseMessage)
    (context : gmap string ContextEntry) (existing_summary_info : option SummaryInfo)
    (w : @World ModelState) : NodeOutcome * @World ModelState :=
  match summarize_messages model token_counter msgs existing_summary_info
          (max_tokens self) (max_summary_tokens self) (templates self) w with
  | (Return summarization_result, w') =>
      (Update (state_update self context summarization_result), w')
  | (Raise e, w') => (Failure (Raised e), w')
  end.

Definition _func (self : t) (input : Input)
    : option (@World ModelState -> NodeOutcome * @World ModelState) :=
  match fields input with
  | None => Some (fun w => (Failure InvalidInputType, w))
  | Some d =>
      let messages := d !! messages_key self in
      let context := default (DictValue ∅) (d !! "context") in
      match messages with
      | None | Some NoneValue => Some (fun w => (Failure MissingMessages, w))
      | Some messages =>
          match context with
          | NoneValue | MessagesValue _ | OtherValue _ false =>
              Some (fun w => (Failure AttributeError, w))
          | OtherValue _ true => None
          | DictValue context =>
              match messages, context !! "summary_info" with
              | MessagesValue msgs, None => Some (call self msgs context None)
              | MessagesValue msgs, Some NoneEntry => Some (call self msgs context None)
              | MessagesValue msgs, Some (SummaryEntry s) =>
                  Some (call self msgs context (Some s))
              | _, _ => None
              end
          end
      end
  end.

End Func.
End SummarizationNode.

(** [context.get("summary_info")], as [summarize_messages] takes it. *)
Definition existing_of (context : gmap string ContextEntry) : option SummaryInfo :=
  match context !! "summary_info" with
  | Some (SummaryEntry s) => Some s
  | _ => None
  end.

(** The ways a step can go, as far as the embedding follows it. *)
Inductive Step {ModelState : Type}
    (model : ModelState -> list BaseMessage -> option string * ModelState)
    (token_counter : list BaseMessage -> Z)
    (self : SummarizationNode.t) (input : Input)
    : (@World ModelState -> NodeOutcome * @World ModelState) -> Prop :=
  | step_invalid
      (Hinput : input = OtherInput) :
      Step model token_counter self input (fun w => (Failure InvalidInputType, w))
  | step_missing d
      (Hfields : SummarizationNode.fields input = Some d)
      (Hmessages : d !! SummarizationNode.messages_key self = None
                   \/ d !! SummarizationNode.messages_key self = Some NoneValue) :
      Step model token_counter self input (fun w => (Failure MissingMessages, w))
  | step_attribute d messages
      (Hfields : SummarizationNode.fields input = Some d)
      (Hmessages : d !! SummarizationNode.messages_key self = Some messages)
      (Hthere : messages <> NoneValue)
      (Hcontext : d !! "context" = Some NoneValue
                  \/ (exists l, d !! "context" = Some (MessagesValue l))
                  \/ exists repr, d !! "context" = Some (OtherValue repr false)) :
      Step model token_counter self input (fun w => (Failure AttributeError, w))
  | step_call d msgs context
      (Hfields : SummarizationNode.fields input = Some d)
      (Hmessages : d !! SummarizationNode.messages_key self = Some (MessagesValue msgs))
      (Hcontext : default (DictValue ∅) (d !! "context") = DictValue context)
      (Hentry : forall repr, context !! "summary_info" <> Some (OtherEntry repr)) :
      Step model token_counter self input
        (SummarizationNode.call model token_counter self msgs context
           (existing_of context)).

(** Further inputs the properties are tried on. *)
Definition roomy_call :=
  summarize_messages first_time_model len_counter
    nine_messages None 20 0 default_templates fresh.

Definition roomy_result : SummarizationResult := Eval vm_compute in returned roomy_call.1.

Definition roomy_world : @World nat := Eval vm_compute in roomy_call.2.

Definition first_time_info : SummaryInfo :=
  {| summary := "This is a summary of the conversation.";
     summarized_message_ids := [Some "1"; Some "2"; Some "3"; Some "4"; Some "5"; Some "6"];
     total_summarized_messages := 6 |}.

Definition all_summarized : SummaryInfo :=
  {| summary := "first, second and third";
     summarized_message_ids := [Some "1"; Some "2"; Some "3"];
     total_summarized_messages := 3 |}.

Definition far_below : SummaryInfo :=
  {| summary := "none";
     summarized_message_ids := [];
     total_summarized_messages := -4 |}.

Definition three_questions : list BaseMessage :=
  [ Human "Question 1" "1"; Human "Question 2" "2"; Human "Question 3" "3" ].

(** A node with the defaults, and one that writes the messages elsewhere. *)
Definition default_node : SummarizationNode.t := SummarizationNode.init 6.

Definition side_node : SummarizationNode.t :=
  {| SummarizationNode.max_tokens := 6;
     SummarizationNode.max_summary_tokens := 1;
     SummarizationNode.templates := default_templates;
     SummarizationNode.messages_key := "messages";
     SummarizationNode.output_messages_key := "summarized_messages" |}.

Definition nine_in_a_dict : gmap string Value :=
  {[ "messages" := MessagesValue nine_messages ]}.

(** The nine messages with a number where the context is expected. *)
Definition number_for_context : gmap string Value :=
  <[ "context" := OtherValue "42" false ]> nine_in_a_dict.

Definition node_call :=
  SummarizationNode.call first_time_model len_counter
    default_node nine_messages ∅ None.

Definition side_call :=
  SummarizationNode.call first_time_model len_counter
    side_node nine_messages ∅ None.

Definition side_update : gmap string Value :=
  {[ "summarized_messages" := MessagesValue (messages first_time_result);
     "context" := DictValue {[ "summary_info" := SummaryEntry first_time_info ]} ]}.

(** * Properties *)

(** ** Python lists *)

Module PyFacts.
Section Lists.
Context {A : Type}.
Implicit Types (l : list A) (i a b : Z).

Lemma range_nil a b : b <= a -> Py.range a b = [].
Proof.
  intros Hle. unfold Py.range.
  replace (Z.to_nat (b - a)) with 0%nat by lia. done.
Qed.

Lemma range_cons a b : a < b -> Py.range a b = a :: Py.range (a + 1) b.
Proof.
  intros Hlt. unfold Py.range.
  replace (Z.to_nat (b - a)) with (S (Z.to_nat (b - (a + 1)))) by lia.
  cbn [seq fmap list_fmap]. f_equal; [lia|].
  rewrite <- seq_shift, <- list_fmap_compose.
  apply list_fmap_ext. intros _ k _. simpl. lia.
Qed.

Lemma getitem_nonneg l i : 0 <= i -> Py.getitem l i = l !! Z.to_nat i.
Proof. intros Hi. unfold Py.getitem. by rewrite bool_decide_eq_true_2. Qed.

Lemma clamp_nonneg l a : 0 <= a -> Py.clamp l a = (Z.to_nat a `min` length l)%nat.
Proof.
  intros Ha. unfold Py.clamp, Py.len.
  rewrite bool_decide_eq_false_2 by lia. lia.
Qed.

Lemma slice_from_nonneg l a : 0 <= a -> Py.slice_from l a = drop (Z.to_nat a) l.
Proof.
  intros Ha. unfold Py.slice_from. rewrite clamp_nonneg by done.
  destruct (decide (Z.to_nat a <= length l)%nat).
  - by rewrite Nat.min_l.
  - rewrite Nat.min_r by lia. rewrite !drop_ge; [done|lia|lia].
Qed.

Lemma len_cons x l : Py.len (x :: l) = 1 + Py.len l.
Proof. unfold Py.len. simpl. lia. Qed.

Lemma len_nonneg l : 0 <= Py.len l.
Proof. unfold Py.len. lia. Qed.

Lemma pop_snoc l x : Py.pop (l ++ [x]) = l.
Proof. unfold Py.pop. apply removelast_last. Qed.
End Lists.
End PyFacts.

(** ** The trimming loop *)

Section Trimming.

Lemma trim_loop_trimmed fuel l :
  (length l <= fuel)%nat -> Trimmed l (trim_loop fuel l).
Proof.
  revert l. induction fuel as [|fuel IH]; intros l Hlen.
  - destruct l; [|simpl in Hlen; lia].
    exists []; [done|constructor|by left].
  - cbn [trim_loop]. destruct (last l) as [m|] eqn:Hlast.
    + apply last_Some in Hlast as [l' ->].
      destruct (must_drop m) eqn:Hm.
      * rewrite PyFacts.pop_snoc.
        destruct (IH l') as [popped Hsplit Hpopped Hstop].
        { rewrite length_app in Hlen. simpl in Hlen. lia. }
        exists (popped ++ [m]).
        -- rewrite app_assoc. by rewrite <- Hsplit.
        -- apply Forall_app. split; [done|]. by constructor.
        -- done.
      * exists []; [by rewrite app_nil_r|constructor|].
        right. exists m. by rewrite last_snoc.
    + apply last_None in Hlast as ->.
      exists []; [done|constructor|by left].
Qed.

Lemma trim_Some candidate kept :
  trim (Some candidate) = Some kept -> Trimmed candidate kept.
Proof.
  unfold trim. simpl. intros [= <-]. by apply trim_loop_trimmed.
Qed.

Lemma trim_is_Some o kept :
  trim o = Some kept -> exists candidate, o = Some candidate /\ Trimmed candidate kept.
Proof.
  destruct o as [candidate|]; [|done].
  intros H. exists candidate. split; [done|]. by apply trim_Some.
Qed.

(** What the loop keeps of a slice is a prefix of the list from the start of
    the slice. *)
Lemma Trimmed_slice_prefix (msgs : list BaseMessage) start stop kept :
  Trimmed (Py.slice msgs start stop) kept ->
  kept = take (length kept) (Py.slice_from msgs start).
Proof.
  intros [popped Hsplit _ _].
  unfold Py.slice, Py.slice_from in *.
  set (tail := drop _ _) in *. set (k := (_ - _)%nat) in *.
  assert (length kept <= k)%nat as Hle.
  { apply (f_equal length) in Hsplit.
    rewrite length_take, length_app in Hsplit. lia. }
  apply (f_equal (take (length kept))) in Hsplit.
  rewrite take_app_length, take_take, Nat.min_l in Hsplit by lia.
  by symmetry.
Qed.

End Trimming.

(** ** Computations that only count tokens *)

Section Counting.
Context {ModelState : Type}.
Variable token_counter : list BaseMessage -> Z.
Local Abbreviation World := (@World ModelState).
Local Abbreviation M := (@M ModelState).
Implicit Types (w : World) (calls : list (list BaseMessage)).

Lemma logged_nil w : logged w [] = w.
Proof. destruct w. unfold logged. simpl. by rewrite app_nil_r. Qed.

Lemma logged_logged w calls1 calls2 :
  logged (logged w calls1) calls2 = logged w (calls1 ++ calls2).
Proof. unfold logged. simpl. by rewrite app_assoc. Qed.

Lemma counts_only_ret {A} (a : A) : counts_only (ModelState:=ModelState) (ret a).
Proof. exists (Return a), []. intros w. unfold ret. by rewrite logged_nil. Qed.

Lemma counts_only_raise {A} e :
  counts_only (ModelState:=ModelState) (@raise ModelState A e).
Proof. exists (Raise e), []. intros w. unfold raise. by rewrite logged_nil. Qed.

Lemma counts_only_count msgs :
  counts_only (ModelState:=ModelState) (count_tokens token_counter msgs).
Proof. by exists (Return (token_counter msgs)), [msgs]. Qed.

Lemma counts_only_getitem msgs i : counts_only (ModelState:=ModelState) (getitem msgs i).
Proof.
  unfold getitem. destruct (Py.getitem msgs i).
  - apply counts_only_ret.
  - apply counts_only_raise.
Qed.

Lemma counts_only_bind {A B} (m : M A) (k : A -> M B) :
  counts_only (ModelState:=ModelState) m ->
  (forall a, counts_only (ModelState:=ModelState) (k a)) ->
  counts_only (ModelState:=ModelState) (bind m k).
Proof.
  intros (o & calls & Hm) Hk. destruct o as [a|e].
  - destruct (Hk a) as (o' & calls' & Hka).
    exists o', (calls ++ calls'). intros w.
    unfold bind. by rewrite Hm, Hka, logged_logged.
  - exists (Raise e), calls. intros w. unfold bind. by rewrite Hm.
Qed.

Lemma counts_only_scan msgs max_tokens max_total_tokens indices n_tokens idx :
  counts_only (ModelState:=ModelState)
    (scan token_counter msgs max_tokens max_total_tokens indices n_tokens idx).
Proof.
  revert n_tokens idx. induction indices as [|i indices IH]; intros n_tokens idx.
  - apply counts_only_ret.
  - cbn [scan]. apply counts_only_bind; [apply counts_only_getitem|]. intros m.
    apply counts_only_bind; [apply counts_only_count|]. intros c.
    case_bool_decide; [apply counts_only_raise|apply IH].
Qed.

Lemma counts_only_to_summarize msgs tsm max_tokens max_summary_tokens :
  counts_only (ModelState:=ModelState)
    (to_summarize token_counter msgs tsm max_tokens max_summary_tokens).
Proof.
  unfold to_summarize. apply counts_only_bind; [apply counts_only_scan|].
  intros [n_tokens idx]. apply counts_only_ret.
Qed.

(** [carve_out] in closed form. *)
Lemma carve_out_run msgs max_tokens w :
  carve_out token_counter msgs max_tokens w =
    (Return (system_of msgs, working_of msgs, budget_of token_counter msgs max_tokens),
     logged w (match system_of msgs with Some m0 => [[m0]] | None => [] end)).
Proof.
  unfold carve_out, system_of, working_of, budget_of, system_of.
  destruct msgs as [|m0 rest]; [by rewrite logged_nil|].
  destruct (is_system m0); [done|]. by rewrite logged_nil.
Qed.

End Counting.

(** ** The courses of one call *)

Section Courses.
Context {ModelState : Type}.
Variable model_invoke : ModelState -> list BaseMessage -> option string * ModelState.
Variable token_counter : list BaseMessage -> Z.
Local Abbreviation World := (@World ModelState).
Implicit Types (w : World) (msgs : list BaseMessage) (info : option SummaryInfo).

Lemma summarize_messages_run msgs info max_tokens max_summary_tokens templates w out w' :
  summarize_messages model_invoke token_counter
    msgs info max_tokens max_summary_tokens templates w = (out, w') ->
  Run model_invoke token_counter msgs info max_tokens max_summary_tokens templates w
    out w'.
Proof.
  unfold summarize_messages.
  case_bool_decide as Hconfig.
  { intros [= <- <-]. by constructor. }
  assert (max_summary_tokens < max_tokens) as Hlt by lia.
  unfold bind at 1. rewrite carve_out_run. fold (carve_log msgs).
  destruct (working_of msgs) as [|m work] eqn:Hwork.
  { intros [= <- <-]. by apply run_empty. }
  fold (count_of info).
  destruct (counts_only_to_summarize (ModelState:=ModelState) token_counter
              (m :: work) (count_of info)
              (budget_of token_counter msgs max_tokens) max_summary_tokens)
    as (o & calls & Hchoice).
  rewrite <- Hwork in *.
  unfold bind at 1. rewrite Hchoice, logged_logged.
  destruct o as [choice|e].
  2:{ intros [= <- <-]. apply run_raise; [done|by rewrite Hwork|done]. }
  destruct choice as [[|m' mts]|].
  - unfold bind, ret. intros [= <- <-].
    eapply run_pass; [done|by rewrite Hwork|done|by right].
  - unfold bind at 1 2. unfold invoke at 1.
    destruct (model_invoke _ _) as [response ms] eqn:Hmodel.
    pose proof (run_summarize model_invoke token_counter msgs info max_tokens
                  max_summary_tokens templates w (m' :: mts) calls response ms
                  Hlt ltac:(by rewrite Hwork) Hchoice ltac:(done) Hmodel) as Hrun.
    destruct response as [text|]; intros [= <- <-]; exact Hrun.
  - unfold bind, ret. intros [= <- <-].
    eapply run_pass; [done|by rewrite Hwork|done|by left].
Qed.

End Courses.

(** ** The scan over a well-formed resume point *)

Section Scanning.
Context {ModelState : Type}.
Variable token_counter : list BaseMessage -> Z.
Local Abbreviation World := (@World ModelState).
Implicit Types (w : World) (msgs l : list BaseMessage) (m : BaseMessage).

Lemma total_cost_app l1 l2 :
  total_cost token_counter (l1 ++ l2)
  = total_cost token_counter l1 + total_cost token_counter l2.
Proof.
  induction l1 as [|m l1 IH]; [done|].
  simpl. unfold total_cost in *. simpl. rewrite IH. lia.
Qed.

Lemma below_ceiling_app max_total_tokens n l1 l2 :
  below_ceiling token_counter max_total_tokens n (l1 ++ l2) <->
  below_ceiling token_counter max_total_tokens n l1
  /\ below_ceiling token_counter max_total_tokens (n + total_cost token_counter l1) l2.
Proof.
  revert n. induction l1 as [|m l1 IH]; intros n.
  - simpl. unfold total_cost. simpl. rewrite Z.add_0_r. tauto.
  - simpl. rewrite IH. unfold total_cost. simpl.
    rewrite Z.add_assoc. tauto.
Qed.

Lemma below_ceiling_mono max_total_tokens n n' l :
  n' <= n ->
  below_ceiling token_counter max_total_tokens n l ->
  below_ceiling token_counter max_total_tokens n' l.
Proof.
  revert n n'. induction l as [|m l IH]; intros n n' Hle; [done|].
  simpl. intros [Hm Hl]. split; [lia|]. eapply IH; [|done]. lia.
Qed.

Section Steps.
Variables (msgs : list BaseMessage) (max_tokens max_total_tokens : Z).

Lemma scan_done a n_tokens idx w :
  0 <= a -> drop (Z.to_nat a) msgs = [] ->
  scan token_counter msgs max_tokens max_total_tokens
       (Py.range a (Py.len msgs)) n_tokens idx w
  = (Return (n_tokens, idx), w).
Proof.
  intros Ha Hdrop. apply drop_nil_inv in Hdrop.
  rewrite PyFacts.range_nil; [done|]. unfold Py.len. lia.
Qed.

Lemma scan_step a m l n_tokens idx w :
  0 <= a -> drop (Z.to_nat a) msgs = m :: l ->
  drop (Z.to_nat (a + 1)) msgs = l
  /\ scan token_counter msgs max_tokens max_total_tokens
          (Py.range a (Py.len msgs)) n_tokens idx w
     = if bool_decide (n_tokens + cost token_counter m >= max_total_tokens)
       then (Raise (BudgetExceeded max_total_tokens), logged w [[m]])
       else scan token_counter msgs max_tokens max_total_tokens
                 (Py.range (a + 1) (Py.len msgs)) (n_tokens + cost token_counter m)
                 (if bool_decide (n_tokens + cost token_counter m <= max_tokens)
                  then a else idx)
                 (logged w [[m]]).
Proof.
  intros Ha Hdrop.
  assert (msgs !! Z.to_nat a = Some m) as Hm.
  { rewrite <- (Nat.add_0_r (Z.to_nat a)), <- lookup_drop, Hdrop. done. }
  split.
  - replace (Z.to_nat (a + 1)) with (S (Z.to_nat a)) by lia.
    rewrite (drop_S _ _ _ Hm) in Hdrop. by injection Hdrop.
  - apply lookup_lt_Some in Hm as Hlt.
    rewrite PyFacts.range_cons by (unfold Py.len; lia).
    cbn [scan]. unfold bind at 1, getitem.
    rewrite PyFacts.getitem_nonneg, Hm by done.
    unfold ret at 1. unfold bind at 1, count_tokens at 1.
    fold (logged w [[m]]). fold (cost token_counter m).
    case_bool_decide; done.
Qed.

Lemma scan_ok l : forall a n_tokens idx w,
  0 <= a -> drop (Z.to_nat a) msgs = l ->
  below_ceiling token_counter max_total_tokens n_tokens l ->
  scan token_counter msgs max_tokens max_total_tokens
       (Py.range a (Py.len msgs)) n_tokens idx w
  = (Return (n_tokens + total_cost token_counter l,
             cutoff token_counter max_tokens l a n_tokens idx),
     logged w (singles l)).
Proof.
  induction l as [|m l IH]; intros a n_tokens idx w Ha Hdrop Hbelow.
  - rewrite scan_done by done. unfold total_cost. simpl.
    by rewrite Z.add_0_r, logged_nil.
  - destruct (scan_step a m l n_tokens idx w Ha Hdrop) as [Hdrop' ->].
    destruct Hbelow as [Hm Hl].
    rewrite bool_decide_eq_false_2 by lia.
    rewrite IH by (done || lia). rewrite logged_logged.
    unfold total_cost. simpl. by rewrite Z.add_assoc.
Qed.

(** The scan stops at the first running total that reaches the ceiling. *)
Lemma scan_raise l : forall j a n_tokens idx w,
  0 <= a -> drop (Z.to_nat a) msgs = l ->
  (j < length l)%nat ->
  max_total_tokens <= n_tokens + total_cost token_counter (take (S j) l) ->
  exists k, (k <= j)%nat
    /\ scan token_counter msgs max_tokens max_total_tokens
            (Py.range a (Py.len msgs)) n_tokens idx w
       = (Raise (BudgetExceeded max_total_tokens), logged w (singles (take (S k) l))).
Proof.
  induction l as [|m l IH]; intros j a n_tokens idx w Ha Hdrop Hj Hreach.
  { simpl in Hj. lia. }
  destruct (scan_step a m l n_tokens idx w Ha Hdrop) as [Hdrop' ->].
  case_bool_decide as Hm.
  - exists 0%nat. split; [lia|]. done.
  - destruct j as [|j].
    { exfalso. apply Hm.
      unfold total_cost in Hreach. simpl in Hreach. lia. }
    destruct (IH j (a + 1) (n_tokens + cost token_counter m)
                (if bool_decide (n_tokens + cost token_counter m <= max_tokens)
                 then a else idx)
                (logged w [[m]])) as (k & Hk & ->).
    + lia.
    + done.
    + simpl in Hj. lia.
    + rewrite firstn_cons in Hreach.
      unfold total_cost in Hreach |- *. simpl in Hreach. lia.
    + exists (S k). split; [lia|]. by rewrite logged_logged.
Qed.

(** Whatever the outcome, the scan counts the messages from the resume point,
    one by one and in order; it counts them all when it returns. *)
Lemma scan_counts l : forall a n_tokens idx w,
  0 <= a -> drop (Z.to_nat a) msgs = l ->
  exists k,
    (scan token_counter msgs max_tokens max_total_tokens
          (Py.range a (Py.len msgs)) n_tokens idx w).2
    = logged w (singles (take k l))
    /\ (l <> [] -> (0 < k)%nat)
    /\ forall r,
         (scan token_counter msgs max_tokens max_total_tokens
               (Py.range a (Py.len msgs)) n_tokens idx w).1 = Return r ->
         k = length l /\ below_ceiling token_counter max_total_tokens n_tokens l.
Proof.
  induction l as [|m l IH]; intros a n_tokens idx w Ha Hdrop.
  - rewrite scan_done by done. exists 0%nat. simpl.
    rewrite logged_nil. done.
  - destruct (scan_step a m l n_tokens idx w Ha Hdrop) as [Hdrop' ->].
    case_bool_decide as Hm.
    + exists 1%nat. simpl. split_and!; [done|lia|done].
    + destruct (IH (a + 1) (n_tokens + cost token_counter m)
                  (if bool_decide (n_tokens + cost token_counter m <= max_tokens)
                   then a else idx)
                  (logged w [[m]])) as (k & Hlog & _ & Hret); [lia|done|].
      exists (S k). rewrite Hlog, logged_logged. split_and!; [done|lia|].
      intros r Hr. destruct (Hret r Hr) as [-> Hbelow].
      simpl. split; [done|]. split; [lia|done].
Qed.
End Steps.

(** *** [to_summarize] in closed form *)

Lemma to_summarize_Some msgs tsm max_tokens max_summary_tokens w kept w' :
  to_summarize token_counter msgs tsm max_tokens max_summary_tokens w
    = (Return (Some kept), w') ->
  exists n_tokens idx,
    scan token_counter msgs max_tokens (max_tokens * 2 - max_summary_tokens)
         (Py.range tsm (Py.len msgs)) 0 (Z.max 0 (tsm - 1)) w
      = (Return (n_tokens, idx), w')
    /\ max_tokens < n_tokens
    /\ Trimmed (Py.slice msgs tsm (idx + 1)) kept.
Proof.
  unfold to_summarize, bind.
  destruct (scan _ _ _ _ _ _ _ w) as [[[n_tokens idx]|e] w1]; [|done].
  unfold ret. intros [= Htrim <-].
  apply trim_is_Some in Htrim as (candidate & Hselect & Htrimmed).
  unfold select in Hselect. case_bool_decide; [done|].
  injection Hselect as <-. exists n_tokens, idx. split_and!; [done|lia|done].
Qed.

Lemma to_summarize_returns msgs tsm max_tokens max_summary_tokens w choice w' :
  0 <= tsm ->
  to_summarize token_counter msgs tsm max_tokens max_summary_tokens w
    = (Return choice, w') ->
  let unsummarized := drop (Z.to_nat tsm) msgs in
  below_ceiling token_counter (max_tokens * 2 - max_summary_tokens) 0 unsummarized
  /\ w' = logged w (singles unsummarized)
  /\ choice
     = trim (select msgs tsm (total_cost token_counter unsummarized)
               (cutoff token_counter max_tokens unsummarized tsm 0 (Z.max 0 (tsm - 1)))
               max_tokens).
Proof.
  intros Htsm Hrun unsummarized.
  assert (below_ceiling token_counter (max_tokens * 2 - max_summary_tokens) 0
            unsummarized) as Hbelow.
  { unfold to_summarize, bind in Hrun.
    destruct (scan_counts msgs max_tokens (max_tokens * 2 - max_summary_tokens)
                unsummarized tsm 0 (Z.max 0 (tsm - 1)) w Htsm eq_refl)
      as (k & _ & _ & Hret).
    destruct (scan _ _ _ _ _ _ _ w) as [[r|e] w1]; [|done].
    by destruct (Hret r eq_refl). }
  split; [done|].
  unfold to_summarize, bind in Hrun.
  rewrite (scan_ok msgs max_tokens _ unsummarized tsm 0 _ w Htsm eq_refl Hbelow) in Hrun.
  unfold ret in Hrun. injection Hrun as <- <-. by rewrite Z.add_0_l.
Qed.

Lemma to_summarize_under msgs tsm max_tokens max_summary_tokens w :
  0 <= tsm ->
  let unsummarized := drop (Z.to_nat tsm) msgs in
  below_ceiling token_counter (max_tokens * 2 - max_summary_tokens) 0 unsummarized ->
  total_cost token_counter unsummarized <= max_tokens ->
  to_summarize token_counter msgs tsm max_tokens max_summary_tokens w
    = (Return None, logged w (singles unsummarized)).
Proof.
  intros Htsm unsummarized Hbelow Hfits.
  unfold to_summarize, bind.
  rewrite (scan_ok msgs max_tokens _ unsummarized tsm 0 _ w Htsm eq_refl Hbelow).
  unfold ret, select. rewrite Z.add_0_l. by rewrite bool_decide_eq_true_2.
Qed.

Lemma to_summarize_raises msgs tsm max_tokens max_summary_tokens w j :
  0 <= tsm ->
  let unsummarized := drop (Z.to_nat tsm) msgs in
  (j < length unsummarized)%nat ->
  max_tokens * 2 - max_summary_tokens <= total_cost token_counter (take (S j) unsummarized) ->
  exists k, (k <= j)%nat
    /\ to_summarize token_counter msgs tsm max_tokens max_summary_tokens w
       = (Raise (BudgetExceeded (max_tokens * 2 - max_summary_tokens)),
          logged w (singles (take (S k) unsummarized))).
Proof.
  intros Htsm unsummarized Hj Hreach.
  destruct (scan_raise msgs max_tokens (max_tokens * 2 - max_summary_tokens)
              unsummarized j tsm 0 (Z.max 0 (tsm - 1)) w Htsm eq_refl Hj)
    as (k & Hk & Hscan); [lia|].
  exists k. split; [done|]. unfold to_summarize, bind. by rewrite Hscan.
Qed.

Lemma to_summarize_counts msgs tsm max_tokens max_summary_tokens w :
  0 <= tsm ->
  let unsummarized := drop (Z.to_nat tsm) msgs in
  exists k,
    (to_summarize token_counter msgs tsm max_tokens max_summary_tokens w).2
      = logged w (singles (take k unsummarized))
    /\ (unsummarized <> [] -> (0 < k)%nat).
Proof.
  intros Htsm unsummarized.
  destruct (scan_counts msgs max_tokens (max_tokens * 2 - max_summary_tokens)
              unsummarized tsm 0 (Z.max 0 (tsm - 1)) w Htsm eq_refl)
    as (k & Hlog & Hpos & _).
  exists k. split; [|done]. unfold to_summarize, bind.
  destruct (scan _ _ _ _ _ _ _ w) as [[[n_tokens idx]|e] w1]; done.
Qed.

(** The only exception the scan raises from a well-formed resume point. *)
Lemma to_summarize_exception msgs tsm max_tokens max_summary_tokens w e w' :
  to_summarize token_counter msgs tsm max_tokens max_summary_tokens w = (Raise e, w') ->
  e = IndexError \/ e = BudgetExceeded (max_tokens * 2 - max_summary_tokens).
Proof.
  unfold to_summarize.
  generalize (Z.max 0 (tsm - 1)) as idx. generalize 0 as n_tokens.
  generalize (Py.range tsm (Py.len msgs)) as indices.
  intros indices. revert w.
  induction indices as [|i indices IH]; intros w n_tokens idx.
  - done.
  - unfold bind at 1. cbn [scan]. unfold bind at 1, getitem.
    destruct (Py.getitem msgs i) as [m|].
    2:{ unfold raise. intros [= <- <-]. by left. }
    unfold ret at 1. unfold bind at 1, count_tokens at 1.
    case_bool_decide.
    + unfold raise. intros [= <- <-]. by right.
    + intros Hrun. eapply IH. unfold bind at 1. exact Hrun.
Qed.

End Scanning.

(** ** What one call does *)

Section Claims.
Context {ModelState : Type}.
Variable model_invoke : ModelState -> list BaseMessage -> option string * ModelState.
Variable token_counter : list BaseMessage -> Z.
Local Abbreviation World := (@World ModelState).
Implicit Types (w : World) (msgs : list BaseMessage) (info : option SummaryInfo).
Implicit Types (templates : Templates) (prompt : list BaseMessage).

Lemma snoc_neq {A} (l : list A) x : l ++ [x] <> l.
Proof. intros H. apply (f_equal length) in H. rewrite length_app in H. simpl in H. lia. Qed.

Lemma must_drop_false m :
  must_drop m = false <->
  type m <> HumanMessage /\ (type m = AIMessage -> tool_calls m = []).
Proof.
  unfold must_drop. rewrite orb_false_iff, andb_false_iff, negb_false_iff.
  rewrite !bool_decide_eq_false, bool_decide_eq_true. split.
  - intros [[Hai|Hcalls] Hhuman]; split; try done.
  - intros [Hhuman Hai]. split; [|done].
    destruct (decide (type m = AIMessage)); [right; auto|by left].
Qed.

(** C6: when [max_summary_tokens >= max_tokens] the call raises the
    configuration error whatever the messages, the prior summary info and the
    templates are, and the world is left as it was: the token counter and the
    model were not called. *)
Theorem invalid_configuration_first msgs info max_tokens max_summary_tokens templates w :
  max_summary_tokens >= max_tokens ->
  summarize_messages model_invoke token_counter
    msgs info max_tokens max_summary_tokens templates w
  = (Raise InvalidConfiguration, w).
Proof.
  intros Hconfig. unfold summarize_messages.
  by rewrite bool_decide_eq_true_2.
Qed.

(** The model's log after one call, against what [to_summarize] returns. *)
Lemma invoked_iff_something_to_summarize
    msgs info max_tokens max_summary_tokens templates w :
  let w' := (summarize_messages model_invoke token_counter
               msgs info max_tokens max_summary_tokens templates w).2 in
  let once := exists prompt, invoke_calls w' = invoke_calls w ++ [prompt] in
  (invoke_calls w' = invoke_calls w \/ once)
  /\ (once <->
      max_summary_tokens < max_tokens
      /\ working_of msgs <> []
      /\ exists messages_to_summarize,
           messages_to_summarize <> []
           /\ (to_summarize token_counter (working_of msgs) (count_of info)
                 (budget_of token_counter msgs max_tokens) max_summary_tokens
                 (logged w (carve_log msgs))).1
              = Return (Some messages_to_summarize)).
Proof.
  destruct (summarize_messages model_invoke token_counter _ _ _ _ _ w)
    as [out w'] eqn:Hrun.
  apply summarize_messages_run in Hrun. simpl.
  destruct Hrun.
  - split; [by left|]. split.
    + intros [prompt H]. symmetry in H. by apply snoc_neq in H.
    + intros [? _]. lia.
  - split; [by left|]. split.
    + intros [prompt H]. symmetry in H. by apply snoc_neq in H.
    + by intros (_ & ? & _).
  - split; [by left|]. split.
    + intros [prompt H]. symmetry in H. by apply snoc_neq in H.
    + intros (_ & _ & mts & _ & H). by rewrite Hchoice in H.
  - split; [by left|]. split.
    + intros [prompt H]. symmetry in H. by apply snoc_neq in H.
    + intros (_ & _ & mts & Hmts & H). rewrite Hchoice in H. simpl in H.
      destruct Hnothing; congruence.
  - assert (exists prompt,
              invoke_calls
                (invoked (logged w (carve_log msgs ++ calls))
                   (summary_prompt templates info messages_to_summarize)
                   ms)
              = invoke_calls w ++ [prompt]) as Honce by (eexists; reflexivity).
    split; [by right|]. split.
    + intros _. split_and!; [done..|].
      exists messages_to_summarize. by rewrite Hchoice.
    + done.
Qed.

(** C9: one call extends the model's call log by nothing or by exactly one
    prompt; it is one prompt exactly when the configuration is valid, messages
    other than the system message remain, the scan returns a total above the
    budget, and the trimming loop leaves some of the candidate slice. *)
Theorem model_invoked_at_most_once msgs info max_tokens max_summary_tokens templates w :
  let w' := (summarize_messages model_invoke token_counter
               msgs info max_tokens max_summary_tokens templates w).2 in
  let once := exists prompt, invoke_calls w' = invoke_calls w ++ [prompt] in
  let budget := budget_of token_counter msgs max_tokens in
  (invoke_calls w' = invoke_calls w \/ once)
  /\ (once <->
      max_summary_tokens < max_tokens
      /\ working_of msgs <> []
      /\ exists n_tokens idx,
           let candidate := Py.slice (working_of msgs) (count_of info) (idx + 1) in
           (scan token_counter (working_of msgs) budget
              (budget * 2 - max_summary_tokens)
              (Py.range (count_of info) (Py.len (working_of msgs)))
              0 (Z.max 0 (count_of info - 1)) (logged w (carve_log msgs))).1
             = Return (n_tokens, idx)
           /\ budget < n_tokens
           /\ trim_loop (length candidate) candidate <> []).
Proof.
  intros w' once budget.
  destruct (invoked_iff_something_to_summarize
              msgs info max_tokens max_summary_tokens templates w) as [Hmost Hiff].
  fold w' in Hmost, Hiff. fold once in Hmost, Hiff. fold budget in Hiff.
  split; [exact Hmost|]. rewrite Hiff. clear Hmost Hiff.
  unfold to_summarize, bind.
  destruct (scan _ _ _ _ _ _ _ _) as [[[n_tokens idx]|e] w1]; simpl.
  - unfold ret, select. simpl. split.
    + intros (Hconfig & Hwork & kept & Hkept & Hreturn).
      split_and!; [done..|]. exists n_tokens, idx.
      case_bool_decide as Hover; [done|]. simpl in Hreturn.
      injection Hreturn as <-. split_and!; [done|lia|done].
    + intros (Hconfig & Hwork & n' & idx' & [= <- <-] & Hover & Hkept).
      split_and!; [done..|]. eexists. split; [exact Hkept|].
      by rewrite bool_decide_eq_false_2 by lia.
  - split.
    + by intros (_ & _ & kept & _ & ?).
    + by intros (_ & _ & n' & idx' & ? & _).
Qed.

(** C7: a call that returns, given a prior summary info, returns a summary
    info whose count is not below the prior one; it is the prior info itself
    when the model was not invoked, and the count is strictly above when it
    was. *)
Theorem total_summarized_messages_monotone
    msgs s max_tokens max_summary_tokens templates w r w' :
  summarize_messages model_invoke token_counter
    msgs (Some s) max_tokens max_summary_tokens templates w
  = (Return r, w') ->
  exists s',
    summary_info r = Some s'
    /\ total_summarized_messages s <= total_summarized_messages s'
    /\ (invoke_calls w' = invoke_calls w -> s' = s)
    /\ (invoke_calls w' <> invoke_calls w ->
        total_summarized_messages s < total_summarized_messages s').
Proof.
  intros Hrun. apply summarize_messages_run in Hrun.
  inversion Hrun as [| | | |mts calls response ms]; subst; clear Hrun.
  - exists s. simpl. split_and!; [done|lia|done|done].
  - exists s. simpl. split_and!; [done|lia|done|done].
  - destruct response as [text|]; [|done].
    match goal with H : Return _ = Return r |- _ => injection H as <- end.
    assert (0 < Py.len mts).
    { destruct mts; [done|]. rewrite PyFacts.len_cons.
      pose proof (PyFacts.len_nonneg mts). lia. }
    exists (extended (Some s) mts text). unfold assemble, extended, count_of. simpl.
    split_and!; [done|lia| |lia].
    intros H'. by apply snoc_neq in H'.
Qed.

(** A call that extended the model's log went through all of lines 174-197. *)
Lemma generated_inv msgs info max_tokens max_summary_tokens templates w out w' prompt :
  summarize_messages model_invoke token_counter
    msgs info max_tokens max_summary_tokens templates w = (out, w') ->
  invoke_calls w' = invoke_calls w ++ [prompt] ->
  exists kept calls response ms n_tokens idx,
    max_summary_tokens < max_tokens
    /\ working_of msgs <> []
    /\ (forall w0,
          to_summarize token_counter (working_of msgs) (count_of info)
            (budget_of token_counter msgs max_tokens) max_summary_tokens w0
          = (Return (Some kept), logged w0 calls))
    /\ (scan token_counter (working_of msgs) (budget_of token_counter msgs max_tokens)
          (budget_of token_counter msgs max_tokens * 2 - max_summary_tokens)
          (Py.range (count_of info) (Py.len (working_of msgs)))
          0 (Z.max 0 (count_of info - 1)) (logged w (carve_log msgs))).1
        = Return (n_tokens, idx)
    /\ budget_of token_counter msgs max_tokens < n_tokens
    /\ Trimmed (Py.slice (working_of msgs) (count_of info) (idx + 1)) kept
    /\ kept <> []
    /\ prompt = summary_prompt templates info kept
    /\ out = match response with
             | Some text =>
                 Return (assemble templates (system_of msgs) (working_of msgs)
                           (Some (extended info kept text))
                           (count_of info + Py.len kept))
             | None => Raise ModelError
             end
    /\ w' = invoked (logged w (carve_log msgs ++ calls)) prompt ms.
Proof.
  intros Hrun Hlog. apply summarize_messages_run in Hrun.
  destruct Hrun as [| | | |kept calls response ms];
    try (symmetry in Hlog; by apply snoc_neq in Hlog).
  simpl in Hlog. apply app_inv_head in Hlog. injection Hlog as <-.
  destruct (to_summarize_Some token_counter _ _ _ _ _ _ _
              (Hchoice (logged w (carve_log msgs))))
    as (n_tokens & idx & Hscan & Hover & Htrimmed).
  exists kept, calls, response, ms, n_tokens, idx.
  rewrite Hscan. split_and!; done.
Qed.

(** C3: the trimming loop only pops messages it must drop, from the end, and
    stops on an empty list or on a message it must keep; and whenever a call
    invokes the model, the list it summarizes is what the loop left of the
    candidate slice, is not empty, and ends on a message that is neither a
    human message nor an AI message with tool calls. *)
Theorem summarized_slice_ends_safely :
  (forall candidate, Trimmed candidate (trim_loop (length candidate) candidate))
  /\ forall msgs info max_tokens max_summary_tokens templates w out w' prompt,
      summarize_messages model_invoke token_counter
        msgs info max_tokens max_summary_tokens templates w = (out, w') ->
      invoke_calls w' = invoke_calls w ++ [prompt] ->
      exists n_tokens idx last_message,
        let candidate := Py.slice (working_of msgs) (count_of info) (idx + 1) in
        let kept := trim_loop (length candidate) candidate in
        (scan token_counter (working_of msgs) (budget_of token_counter msgs max_tokens)
           (budget_of token_counter msgs max_tokens * 2 - max_summary_tokens)
           (Py.range (count_of info) (Py.len (working_of msgs)))
           0 (Z.max 0 (count_of info - 1)) (logged w (carve_log msgs))).1
          = Return (n_tokens, idx)
        /\ prompt = summary_prompt templates info kept
        /\ (forall r, out = Return r ->
              exists s, summary_info r = Some s
                        /\ summarized_message_ids s = id <$> kept)
        /\ last kept = Some last_message
        /\ type last_message <> HumanMessage
        /\ (type last_message = AIMessage -> tool_calls last_message = []).
Proof.
  split.
  { intros candidate. by apply trim_loop_trimmed. }
  intros msgs info max_tokens max_summary_tokens templates w out w' prompt Hrun Hlog.
  destruct (generated_inv _ _ _ _ _ _ _ _ _ Hrun Hlog)
    as (kept & calls & response & ms & n_tokens & idx
        & _ & _ & Hchoice & Hscan & _ & Htrimmed & Hkept & -> & -> & _).
  assert (kept = trim_loop (length (Py.slice (working_of msgs) (count_of info) (idx + 1)))
                   (Py.slice (working_of msgs) (count_of info) (idx + 1))) as Hloop.
  { specialize (Hchoice (logged w (carve_log msgs))).
    unfold to_summarize, bind in Hchoice.
    destruct (scan _ _ _ _ _ _ _ _) as [[[n' idx']|e] w1]; [|done].
    simpl in Hscan. injection Hscan as -> ->.
    unfold ret, select in Hchoice. case_bool_decide; [done|].
    simpl in Hchoice. by injection Hchoice as <-. }
  destruct Htrimmed as [popped _ _ [->|(m & Hlast & Hm)]]; [done|].
  apply must_drop_false in Hm as [Hhuman Hai].
  exists n_tokens, idx, m. simpl. rewrite <- Hloop.
  split_and!; try done.
  intros r Hr. destruct response as [text|]; [|done].
  injection Hr as <-. by eexists.
Qed.

(** C5: when a call invokes the model and returns, the summarized messages
    are a non-empty prefix of [working[total_summarized_messages:]], the new
    count is the prior count plus their number, and the new ids are their ids,
    in order. *)
Theorem summarized_slice_and_new_state
    msgs info max_tokens max_summary_tokens templates w r w' prompt :
  summarize_messages model_invoke token_counter
    msgs info max_tokens max_summary_tokens templates w = (Return r, w') ->
  invoke_calls w' = invoke_calls w ++ [prompt] ->
  exists kept s',
    kept <> []
    /\ prompt = summary_prompt templates info kept
    /\ kept = take (length kept) (Py.slice_from (working_of msgs) (count_of info))
    /\ (0 <= count_of info ->
        kept = take (length kept) (drop (Z.to_nat (count_of info)) (working_of msgs)))
    /\ summary_info r = Some s'
    /\ total_summarized_messages s' = count_of info + Py.len kept
    /\ summarized_message_ids s' = id <$> kept
    /\ messages r =
         final_prompt templates (system_placeholder (system_of msgs)) (summary s')
           (Py.slice_from (working_of msgs) (total_summarized_messages s')).
Proof.
  intros Hrun Hlog.
  destruct (generated_inv _ _ _ _ _ _ _ _ _ Hrun Hlog)
    as (kept & calls & response & ms & n_tokens & idx
        & _ & _ & _ & _ & _ & Htrimmed & Hkept & -> & Hout & _).
  destruct response as [text|]; [|done]. injection Hout as ->.
  apply Trimmed_slice_prefix in Htrimmed as Hprefix.
  exists kept, (extended info kept text). split_and!; try done.
  intros Htsm. by rewrite <- PyFacts.slice_from_nonneg.
Qed.

(** The call, when a running total of the scan reaches the ceiling. *)
Lemma summarize_messages_raises
    msgs info max_tokens max_summary_tokens templates w j :
  max_summary_tokens < max_tokens ->
  0 <= count_of info ->
  let ceiling := budget_of token_counter msgs max_tokens * 2 - max_summary_tokens in
  let unsummarized := drop (Z.to_nat (count_of info)) (working_of msgs) in
  (j < length unsummarized)%nat ->
  ceiling <= total_cost token_counter (take (S j) unsummarized) ->
  exists k, (k <= j)%nat
    /\ summarize_messages model_invoke token_counter
         msgs info max_tokens max_summary_tokens templates w
       = (Raise (BudgetExceeded ceiling),
          logged w (carve_log msgs ++ singles (take (S k) unsummarized))).
Proof.
  intros Hconfig Htsm ceiling unsummarized Hj Hreach.
  destruct (to_summarize_raises token_counter (working_of msgs) (count_of info)
              (budget_of token_counter msgs max_tokens) max_summary_tokens
              (logged w (carve_log msgs)) j Htsm Hj Hreach) as (k & Hk & Hraise).
  exists k. split; [done|].
  unfold summarize_messages. rewrite bool_decide_eq_false_2 by lia.
  unfold bind at 1. rewrite carve_out_run. fold (carve_log msgs).
  destruct (working_of msgs) as [|m work] eqn:Hwork.
  { subst unsummarized. rewrite drop_nil in Hj. simpl in Hj. lia. }
  fold (count_of info). unfold bind at 1.
  rewrite Hraise, logged_logged. done.
Qed.

Lemma total_cost_nonneg l :
  Forall (fun m => 0 <= cost token_counter m) l -> 0 <= total_cost token_counter l.
Proof.
  induction 1 as [|m l Hm _ IH]; [done|].
  unfold total_cost in *. simpl. lia.
Qed.

(** C2: with a valid configuration and a well-formed prior count, if the
    running total over the unsummarized messages reaches
    [2 * budget - max_summary_tokens] at some message -- as it does at a
    message that alone costs that much, after messages of non-negative cost --
    the call raises the budget error, at that message or before; the model is
    not invoked, and the counter is called on nothing past that message. *)
Theorem budget_exceeded_at_ceiling
    msgs info max_tokens max_summary_tokens templates w j :
  max_summary_tokens < max_tokens ->
  0 <= count_of info ->
  let ceiling := budget_of token_counter msgs max_tokens * 2 - max_summary_tokens in
  let unsummarized := drop (Z.to_nat (count_of info)) (working_of msgs) in
  let run := summarize_messages model_invoke token_counter
               msgs info max_tokens max_summary_tokens templates w in
  (j < length unsummarized)%nat ->
  (ceiling <= total_cost token_counter (take (S j) unsummarized)
   \/ (Forall (fun m => 0 <= cost token_counter m) (take j unsummarized)
       /\ exists m, unsummarized !! j = Some m /\ ceiling <= cost token_counter m)) ->
  run.1 = Raise (BudgetExceeded ceiling)
  /\ invoke_calls run.2 = invoke_calls w
  /\ model_state run.2 = model_state w
  /\ exists k, (k <= j)%nat
       /\ counter_calls run.2
          = counter_calls w ++ carve_log msgs ++ singles (take (S k) unsummarized).
Proof.
  intros Hconfig Htsm ceiling unsummarized run Hj Hreach.
  assert (ceiling <= total_cost token_counter (take (S j) unsummarized)) as Htotal.
  { destruct Hreach as [?|(Hbefore & m & Hm & Hcost)]; [done|].
    rewrite (take_S_r _ _ _ Hm), total_cost_app.
    apply total_cost_nonneg in Hbefore.
    unfold total_cost at 2. simpl. lia. }
  destruct (summarize_messages_raises msgs info max_tokens max_summary_tokens
              templates w j Hconfig Htsm Hj Htotal) as (k & Hk & Hrun).
  subst run. rewrite Hrun. simpl. split_and!; try done.
  exists k. done.
Qed.

(** C10: a valid configuration whose system message costs at least
    [max_tokens - max_summary_tokens] leaves a budget that is at most
    [max_summary_tokens] and a ceiling strictly below [max_tokens]; the
    configuration error is not raised, and a first message that reaches that
    ceiling raises the budget error. *)
Theorem carve_out_undercuts_configuration
    m0 m rest max_tokens max_summary_tokens templates w :
  type m0 = SystemMessage ->
  max_summary_tokens < max_tokens ->
  max_tokens - max_summary_tokens <= token_counter [m0] ->
  (max_tokens - token_counter [m0]) * 2 - max_summary_tokens <= token_counter [m] ->
  let budget := budget_of token_counter (m0 :: m :: rest) max_tokens in
  budget = max_tokens - token_counter [m0]
  /\ budget <= max_summary_tokens
  /\ budget * 2 - max_summary_tokens < max_tokens
  /\ summarize_messages model_invoke token_counter
       (m0 :: m :: rest) None max_tokens max_summary_tokens templates w
     = (Raise (BudgetExceeded (budget * 2 - max_summary_tokens)),
        logged w [[m0]; [m]]).
Proof.
  intros Hsystem Hconfig Hsys Hfirst budget.
  assert (is_system m0 = true) as His by (by apply bool_decide_eq_true_2).
  assert (budget = max_tokens - token_counter [m0]) as Hbudget.
  { subst budget. unfold budget_of, system_of. by rewrite His. }
  split_and!; [done|lia|lia|].
  destruct (summarize_messages_raises (m0 :: m :: rest) None max_tokens
              max_summary_tokens templates w 0) as (k & Hk & Hrun).
  - done.
  - done.
  - unfold working_of. rewrite His. simpl. lia.
  - unfold working_of. rewrite His. simpl. fold budget. rewrite Hbudget.
    unfold total_cost, cost. simpl. lia.
  - rewrite Hrun. fold budget. f_equal.
    assert (k = 0%nat) as -> by lia.
    unfold carve_log, system_of, working_of. rewrite His. done.
Qed.

Lemma Return_inj {A} (a b : A) : Return a = Return b -> a = b.
Proof. by intros [= ->]. Qed.

Lemma logged_inj w calls1 calls2 : logged w calls1 = logged w calls2 -> calls1 = calls2.
Proof.
  intros H. apply (f_equal counter_calls) in H. simpl in H.
  by apply app_inv_head in H.
Qed.

Lemma carve_out_system m0 rest max_tokens :
  type m0 = SystemMessage ->
  system_of (m0 :: rest) = Some m0
  /\ working_of (m0 :: rest) = rest
  /\ budget_of token_counter (m0 :: rest) max_tokens = max_tokens - token_counter [m0]
  /\ carve_log (m0 :: rest) = [[m0]].
Proof.
  intros Hsystem.
  assert (is_system m0 = true) as His by (by apply bool_decide_eq_true_2).
  unfold carve_log, budget_of, system_of, working_of. by rewrite His.
Qed.

(** C4, amended: with a valid configuration and a prior count inside the
    messages left after the system message (0 without prior summary info), the
    scan starts at index [total_summarized_messages], and counts the messages
    from there on, one by one and in order. *)
Theorem scan_starts_at_total_summarized_messages
    msgs info max_tokens max_summary_tokens templates w :
  max_summary_tokens < max_tokens ->
  0 <= count_of info < Py.len (working_of msgs) ->
  scan_starts_at model_invoke token_counter (count_of info)
    msgs info max_tokens max_summary_tokens templates w
  /\ exists k, (0 < k)%nat
       /\ counter_calls
            (summarize_messages model_invoke token_counter
               msgs info max_tokens max_summary_tokens templates w).2
          = counter_calls w ++ carve_log msgs
            ++ singles (take k (drop (Z.to_nat (count_of info)) (working_of msgs))).
Proof.
  intros Hconfig [Htsm Hin].
  set (unsummarized := drop (Z.to_nat (count_of info)) (working_of msgs)).
  assert (exists m l, unsummarized = m :: l
                      /\ Py.getitem (working_of msgs) (count_of info) = Some m)
    as (m & l & Huns & Hget).
  { rewrite PyFacts.getitem_nonneg by done.
    destruct (working_of msgs !! Z.to_nat (count_of info)) as [m|] eqn:Hm.
    - exists m, (drop (S (Z.to_nat (count_of info))) (working_of msgs)).
      split; [|done]. by apply drop_S.
    - apply lookup_ge_None in Hm. unfold Py.len in Hin. lia. }
  assert (exists k, (0 < k)%nat
            /\ counter_calls
                 (summarize_messages model_invoke token_counter
                    msgs info max_tokens max_summary_tokens templates w).2
               = counter_calls w ++ carve_log msgs ++ singles (take k unsummarized))
    as (k & Hk & Hlog).
  { destruct (summarize_messages _ _ _ _ _ _ _ w) as [out w'] eqn:Hrun.
    apply summarize_messages_run in Hrun. simpl.
    assert (forall o calls,
              (forall w0, to_summarize token_counter (working_of msgs) (count_of info)
                            (budget_of token_counter msgs max_tokens)
                            max_summary_tokens w0 = (o, logged w0 calls)) ->
              exists k, (0 < k)%nat /\ calls = singles (take k unsummarized)) as Hcalls.
    { intros o calls Hchoice.
      destruct (to_summarize_counts token_counter (working_of msgs) (count_of info)
                  (budget_of token_counter msgs max_tokens) max_summary_tokens w Htsm)
        as (k & Hlog & Hpos).
      exists k. split; [apply Hpos; fold unsummarized; by rewrite Huns|].
      rewrite Hchoice in Hlog. simpl in Hlog. by apply logged_inj in Hlog. }
    destruct Hrun as [| |e calls|choice calls|kept calls response ms].
    - lia.
    - exfalso. subst unsummarized. rewrite Hwork, drop_nil in Huns. done.
    - destruct (Hcalls _ _ Hchoice) as (k & Hk & ->). exists k. done.
    - destruct (Hcalls _ _ Hchoice) as (k & Hk & ->). exists k. done.
    - destruct (Hcalls _ _ Hchoice) as (k & Hk & ->). exists k. done. }
  split; [|by exists k].
  exists m, (singles (take (k - 1) l)). split; [done|].
  rewrite Hlog, Huns. destruct k as [|k]; [lia|].
  simpl. by rewrite Nat.sub_0_r.
Qed.

(** A call that did not invoke the model does the same in any world. *)
Lemma quiet_call_any_world msgs info max_tokens max_summary_tokens templates w out w' :
  summarize_messages model_invoke token_counter
    msgs info max_tokens max_summary_tokens templates w = (out, w') ->
  invoke_calls w' = invoke_calls w ->
  exists calls, forall w0,
    summarize_messages model_invoke token_counter
      msgs info max_tokens max_summary_tokens templates w0 = (out, logged w0 calls).
Proof.
  unfold summarize_messages.
  case_bool_decide as Hconfig.
  { intros [= <- <-] _. exists []. intros w0. by rewrite logged_nil. }
  unfold bind at 1. rewrite carve_out_run. fold (carve_log msgs).
  destruct (working_of msgs) as [|m work] eqn:Hwork.
  { intros [= <- <-] _. exists (carve_log msgs). intros w0.
    unfold bind at 1. by rewrite carve_out_run, Hwork. }
  fold (count_of info).
  destruct (counts_only_to_summarize (ModelState:=ModelState) token_counter
              (m :: work) (count_of info)
              (budget_of token_counter msgs max_tokens) max_summary_tokens)
    as (o & calls & Hchoice).
  unfold bind at 1. rewrite Hchoice, logged_logged.
  destruct o as [choice|e].
  2:{ intros [= <- <-] _. exists (carve_log msgs ++ calls). intros w0.
      unfold bind at 1. rewrite carve_out_run, Hwork. cbv beta iota.
      unfold bind at 1. by rewrite Hchoice, logged_logged. }
  destruct choice as [[|m' kept]|].
  - unfold bind, ret. intros [= <- <-] _. exists (carve_log msgs ++ calls).
    intros w0. rewrite carve_out_run, Hwork. cbv beta iota.
    by rewrite Hchoice, logged_logged.
  - unfold bind at 1 2. unfold invoke at 1.
    destruct (model_invoke _ _) as [response ms].
    destruct response as [text|]; intros [= <- <-] Hlog; simpl in Hlog;
      by apply snoc_neq in Hlog.
  - unfold bind, ret. intros [= <- <-] _. exists (carve_log msgs ++ calls).
    intros w0. rewrite carve_out_run, Hwork. cbv beta iota.
    by rewrite Hchoice, logged_logged.
Qed.

(** The call, when the unsummarized messages fit the budget. *)
Lemma summarize_messages_under msgs info max_tokens max_summary_tokens templates w :
  max_summary_tokens < max_tokens ->
  working_of msgs <> [] ->
  0 <= count_of info ->
  let budget := budget_of token_counter msgs max_tokens in
  let unsummarized := drop (Z.to_nat (count_of info)) (working_of msgs) in
  below_ceiling token_counter (budget * 2 - max_summary_tokens) 0 unsummarized ->
  total_cost token_counter unsummarized <= budget ->
  summarize_messages model_invoke token_counter
    msgs info max_tokens max_summary_tokens templates w
  = (Return (assemble templates (system_of msgs) (working_of msgs) info (count_of info)),
     logged w (carve_log msgs ++ singles unsummarized)).
Proof.
  intros Hconfig Hwork Htsm budget unsummarized Hbelow Hfits.
  unfold summarize_messages. rewrite bool_decide_eq_false_2 by lia.
  unfold bind at 1. rewrite carve_out_run. fold (carve_log msgs).
  destruct (working_of msgs) as [|m work] eqn:Hw; [done|].
  fold (count_of info). unfold bind at 1.
  rewrite (to_summarize_under token_counter (m :: work) (count_of info) _ _ _
             Htsm Hbelow Hfits).
  rewrite logged_logged. done.
Qed.

(** C1, amended: for a well-formed prior count, if a call returns and --
    in case it invoked the model -- the messages after the new count cost no
    more in total than the budget left by the system message, then the same
    call with the returned summary info returns the same result and does not
    invoke the model. *)
Theorem second_call_changes_nothing
    msgs info max_tokens max_summary_tokens templates w r1 w1 :
  0 <= count_of info ->
  summarize_messages model_invoke token_counter
    msgs info max_tokens max_summary_tokens templates w = (Return r1, w1) ->
  (invoke_calls w1 <> invoke_calls w ->
   total_cost token_counter
     (Py.slice_from (working_of msgs) (count_of (summary_info r1)))
   <= budget_of token_counter msgs max_tokens) ->
  exists w2,
    summarize_messages model_invoke token_counter
      msgs (summary_info r1) max_tokens max_summary_tokens templates w1
    = (Return r1, w2)
    /\ invoke_calls w2 = invoke_calls w1
    /\ model_state w2 = model_state w1.
Proof.
  intros Htsm Hrun Hfits.
  destruct (decide (invoke_calls w1 = invoke_calls w)) as [Hquiet|Hinvoked].
  - (* nothing was summarized: the prior info came back *)
    destruct (quiet_call_any_world _ _ _ _ _ _ _ _ Hrun Hquiet) as (calls & Hany).
    assert (summary_info r1 = info) as ->.
    { apply summarize_messages_run in Hrun.
      inversion Hrun as [| | |choice calls'|kept calls' response ms]; subst.
      - done.
      - unfold assemble. by destruct info.
      - simpl in Hquiet. by apply snoc_neq in Hquiet. }
    exists (logged w1 calls). by rewrite Hany.
  - specialize (Hfits Hinvoked).
    remember (Return r1) as out eqn:Hr1 in Hrun.
    apply summarize_messages_run in Hrun.
    destruct Hrun as [| | |choice calls|kept calls response ms]; try done.
    destruct response as [text|]; [|done].
    apply Return_inj in Hr1.
    set (budget := budget_of token_counter msgs max_tokens) in *.
    set (work := working_of msgs) in *.
    set (s1 := extended info kept text) in *.
    assert (summary_info r1 = Some s1) as Hinfo1 by (by rewrite <- Hr1).
    rewrite Hinfo1 in Hfits |- *.
    destruct (to_summarize_returns token_counter _ _ _ _ _ _ _ Htsm (Hchoice w))
      as (Hbelow & _ & Hkept).
    set (unsummarized := drop (Z.to_nat (count_of info)) work) in *.
    (* the first call was over budget, and summarized a prefix *)
    assert (budget < total_cost token_counter unsummarized) as Hover.
    { unfold select in Hkept. case_bool_decide; [done|lia]. }
    symmetry in Hkept. apply trim_is_Some in Hkept as (candidate & Hcand & Htrimmed).
    unfold select in Hcand. case_bool_decide; [done|]. injection Hcand as <-.
    apply Trimmed_slice_prefix in Htrimmed as Hprefix.
    rewrite PyFacts.slice_from_nonneg in Hprefix by done. fold unsummarized in Hprefix.
    assert (0 <= count_of (Some s1)) as Htsm1.
    { simpl. pose proof (PyFacts.len_nonneg kept). lia. }
    assert (drop (Z.to_nat (count_of (Some s1))) work
            = drop (length kept) unsummarized) as Hrest.
    { subst unsummarized. rewrite drop_drop. f_equal. simpl. unfold Py.len. lia. }
    assert (unsummarized = kept ++ drop (length kept) unsummarized) as Hsplit.
    { transitivity (take (length kept) unsummarized ++ drop (length kept) unsummarized).
      - by rewrite take_drop.
      - by rewrite <- Hprefix. }
    rewrite PyFacts.slice_from_nonneg, Hrest in Hfits by done.
    assert (0 < total_cost token_counter kept) as Hpos.
    { apply (f_equal (total_cost token_counter)) in Hsplit.
      rewrite total_cost_app in Hsplit. lia. }
    rewrite Hsplit in Hbelow. apply below_ceiling_app in Hbelow as [_ Hbelow].
    apply (below_ceiling_mono _ _ _ 0) in Hbelow; [|lia].
    eexists. split.
    + rewrite summarize_messages_under; try done.
      * f_equal. rewrite <- Hr1. done.
      * fold work. by rewrite Hrest.
      * fold work. by rewrite Hrest.
    + done.
Qed.

End Claims.

(** ** The test-suite, replayed *)

(** [test_summarize_first_time], first call: one model call, the summary
    followed by the last three messages, the ids of the first six. *)
Example test_summarize_first_time :
  let run := summarize_messages first_time_model len_counter
               nine_messages None 6 0 default_templates fresh in
  run.1 = Return
            {| messages :=
                 system ("Summary of conversation earlier: "
                         +:+ "This is a summary of the conversation.")
                 :: drop 6 nine_messages;
               summary_info :=
                 Some {| summary := "This is a summary of the conversation.";
                         summarized_message_ids := id <$> take 6 nine_messages;
                         total_summarized_messages := 6 |} |}
  /\ invoke_calls run.2 = [DEFAULT_INITIAL_SUMMARY_PROMPT (take 6 nine_messages)].
Proof. vm_compute. done. Qed.

(** [test_with_system_message]: the prompt holds messages 1 to 4, the result
    has seven messages and ends with the last five. *)
Example test_with_system_message :
  let run := summarize_messages (MockChatModel ["Summary with system message present."])
               len_counter with_system_message None 6 0 default_templates fresh in
  invoke_calls run.2 = [DEFAULT_INITIAL_SUMMARY_PROMPT (take 4 nine_messages)]
  /\ (messages <$> (match run.1 with Return r => Some r | Raise _ => None end))
     = Some (helpful_assistant
             :: system ("Summary of conversation earlier: "
                        +:+ "Summary with system message present.")
             :: drop 4 nine_messages).
Proof. vm_compute. done. Qed.

(** [test_only_summarize_new_messages], second call: the model sees the six
    messages after the first six, and the instruction that carries the first
    summary. *)
Example test_only_summarize_new_messages :
  let run := summarize_messages two_summaries_model len_counter
               thirteen_messages (Some first_summary) 6 0 default_templates
               after_first_summary in
  invoke_calls run.2
    = [DEFAULT_EXISTING_SUMMARY_PROMPT (take 6 (drop 6 thirteen_messages))
         "First summary of the conversation."]
  /\ (summary_info <$> (match run.1 with Return r => Some r | Raise _ => None end))
     = Some (Some {| summary := "Updated summary including only new messages.";
                     summarized_message_ids := id <$> take 6 (drop 6 thirteen_messages);
                     total_summarized_messages := 12 |}).
Proof. vm_compute. done. Qed.

(** ** Where the specification and the code part *)

(** The two calls on [open_questions]: the first keeps one message of a
    candidate of three, the second finds four tokens left against a budget of
    three and summarizes three more messages. *)
Example open_questions_summarized_twice :
  let model := MockChatModel ["S1"; "S2"] in
  let first := summarize_messages model len_counter
                 open_questions None 3 0 default_templates fresh in
  let second := summarize_messages model len_counter
                  open_questions (summary_info (returned first.1)) 3 0
                  default_templates first.2 in
  (total_summarized_messages <$> summary_info (returned first.1)) = Some 1
  /\ (total_summarized_messages <$> summary_info (returned second.1)) = Some 4
  /\ length (invoke_calls first.2) = 1%nat
  /\ length (invoke_calls second.2) = 2%nat.
Proof. vm_compute. done. Qed.

(** C1, as stated, fails on [open_questions]: the second call does not
    return what the first returned. *)
Lemma second_call_summarizes_again :
  ~ idempotent_at (MockChatModel ["S1"; "S2"]) len_counter
      open_questions None 3 0 default_templates fresh.
Proof.
  intros Hidem.
  edestruct Hidem as (w2 & Hsecond & Hlog).
  { vm_compute. reflexivity. }
  vm_compute in Hsecond. discriminate Hsecond.
Qed.

(** The well-formed count is needed: from a count of -3 the scan runs over
    the three messages twice, and a second call summarizes again although the
    messages after the returned count fit the budget. *)
Example ill_formed_count_summarizes_again :
  let model := MockChatModel ["S1"; "S2"] in
  let info := Some {| summary := "none";
                      summarized_message_ids := [];
                      total_summarized_messages := -3 |} in
  let first := summarize_messages model len_counter
                 three_answers info 4 0 default_templates fresh in
  total_cost len_counter
    (Py.slice_from (working_of three_answers)
       (count_of (summary_info (returned first.1))))
  <= budget_of len_counter three_answers 4
  /\ ~ idempotent_at model len_counter three_answers info 4 0 default_templates fresh.
Proof.
  split.
  - vm_compute. discriminate.
  - intros Hidem.
    edestruct Hidem as (w2 & Hsecond & Hlog).
    { vm_compute. reflexivity. }
    vm_compute in Hsecond. discriminate Hsecond.
Qed.

(** C4, as stated, fails: with two messages summarized, the first message
    counted is the third, not the second. *)
Lemma scan_does_not_start_one_before :
  ~ scan_starts_at two_summaries_model len_counter
      (Z.max 0 (count_of (Some two_summarized) - 1))
      three_answers (Some two_summarized) 6 0 default_templates fresh.
Proof.
  intros (m & calls & Hget & Hlog).
  vm_compute in Hget. vm_compute in Hlog.
  injection Hget as <-. discriminate Hlog.
Qed.

(** ** The properties at work *)

(** Scenarios 1 and 2: the nine messages, summarized once, called again. *)
Lemma second_call_changes_nothing_witness :
  0 <= count_of None
  /\ first_time_call = (Return first_time_result, first_time_world)
  /\ (invoke_calls first_time_world <> invoke_calls fresh ->
      total_cost len_counter
        (Py.slice_from (working_of nine_messages) (count_of (summary_info first_time_result)))
      <= budget_of len_counter nine_messages 6)
  /\ exists w2,
       summarize_messages first_time_model len_counter
         nine_messages (summary_info first_time_result) 6 0 default_templates
         first_time_world
       = (Return first_time_result, w2)
       /\ invoke_calls w2 = invoke_calls first_time_world
       /\ model_state w2 = model_state first_time_world.
Proof.
  assert (0 <= count_of None) as H1 by (simpl; lia).
  assert (first_time_call = (Return first_time_result, first_time_world)) as H2
    by (vm_compute; reflexivity).
  assert (invoke_calls first_time_world <> invoke_calls fresh ->
          total_cost len_counter
            (Py.slice_from (working_of nine_messages)
               (count_of (summary_info first_time_result)))
          <= budget_of len_counter nine_messages 6) as H3
    by (intros _; vm_compute; discriminate).
  split_and!; [exact H1|exact H2|exact H3|].
  exact (second_call_changes_nothing first_time_model len_counter
           nine_messages None 6 0 default_templates fresh
           first_time_result first_time_world H1 H2 H3).
Defined.

(** Scenario 5: one message that alone is past the ceiling of twelve. *)
Lemma budget_exceeded_at_ceiling_witness :
  0 < 6
  /\ 0 <= count_of None
  /\ (0 < length (drop (Z.to_nat (count_of None)) (working_of [long_message])))%nat
  /\ (budget_of char_counter [long_message] 6 * 2 - 0
      <= total_cost char_counter
           (take 1 (drop (Z.to_nat (count_of None)) (working_of [long_message])))
      \/ (Forall (fun m => 0 <= cost char_counter m)
            (take 0 (drop (Z.to_nat (count_of None)) (working_of [long_message])))
          /\ exists m,
               drop (Z.to_nat (count_of None)) (working_of [long_message]) !! 0%nat = Some m
               /\ budget_of char_counter [long_message] 6 * 2 - 0 <= cost char_counter m))
  /\ let run := summarize_messages first_time_model char_counter
                  [long_message] None 6 0 default_templates fresh in
     run.1 = Raise (BudgetExceeded (budget_of char_counter [long_message] 6 * 2 - 0))
     /\ invoke_calls run.2 = invoke_calls fresh
     /\ model_state run.2 = model_state fresh
     /\ exists k, (k <= 0)%nat
          /\ counter_calls run.2
             = counter_calls fresh ++ carve_log [long_message]
               ++ singles (take (S k)
                             (drop (Z.to_nat (count_of None)) (working_of [long_message]))).
Proof.
  assert (0 < 6) as H1 by lia.
  assert (0 <= count_of None) as H2 by (simpl; lia).
  assert (0 < length (drop (Z.to_nat (count_of None)) (working_of [long_message])))%nat
    as H3 by (vm_compute; lia).
  assert (budget_of char_counter [long_message] 6 * 2 - 0
          <= total_cost char_counter
               (take 1 (drop (Z.to_nat (count_of None)) (working_of [long_message])))
          \/ (Forall (fun m => 0 <= cost char_counter m)
                (take 0 (drop (Z.to_nat (count_of None)) (working_of [long_message])))
              /\ exists m,
                   drop (Z.to_nat (count_of None)) (working_of [long_message]) !! 0%nat
                   = Some m
                   /\ budget_of char_counter [long_message] 6 * 2 - 0
                      <= cost char_counter m))
    as H4.
  { right. split; [constructor|]. exists long_message.
    split; [reflexivity|]. vm_compute. discriminate. }
  split_and!; [exact H1|exact H2|exact H3|exact H4|].
  exact (budget_exceeded_at_ceiling first_time_model char_counter
           [long_message] None 6 0 default_templates fresh 0%nat H1 H2 H3 H4).
Defined.

(** Scenario 1: the six messages summarized end on an answer. *)
Lemma summarized_slice_ends_safely_witness :
  first_time_call = (Return first_time_result, first_time_world)
  /\ invoke_calls first_time_world
     = invoke_calls fresh ++ [DEFAULT_INITIAL_SUMMARY_PROMPT (take 6 nine_messages)]
  /\ exists n_tokens idx last_message,
       let candidate := Py.slice (working_of nine_messages) (count_of None) (idx + 1) in
       let kept := trim_loop (length candidate) candidate in
       (scan len_counter (working_of nine_messages) (budget_of len_counter nine_messages 6)
          (budget_of len_counter nine_messages 6 * 2 - 0)
          (Py.range (count_of None) (Py.len (working_of nine_messages)))
          0 (Z.max 0 (count_of None - 1)) (logged fresh (carve_log nine_messages))).1
         = Return (n_tokens, idx)
       /\ DEFAULT_INITIAL_SUMMARY_PROMPT (take 6 nine_messages)
          = summary_prompt default_templates None kept
       /\ (forall r, Return first_time_result = Return r ->
             exists s, summary_info r = Some s
                       /\ summarized_message_ids s = id <$> kept)
       /\ last kept = Some last_message
       /\ type last_message <> HumanMessage
       /\ (type last_message = AIMessage -> tool_calls last_message = []).
Proof.
  assert (first_time_call = (Return first_time_result, first_time_world)) as H1
    by (vm_compute; reflexivity).
  assert (invoke_calls first_time_world
          = invoke_calls fresh ++ [DEFAULT_INITIAL_SUMMARY_PROMPT (take 6 nine_messages)])
    as H2 by (vm_compute; reflexivity).
  split_and!; [exact H1|exact H2|].
  exact (proj2 (summarized_slice_ends_safely first_time_model len_counter)
           nine_messages None 6 0 default_templates fresh
           (Return first_time_result) first_time_world
           (DEFAULT_INITIAL_SUMMARY_PROMPT (take 6 nine_messages)) H1 H2).
Defined.

(** Two of three messages summarized: the scan starts at the third. *)
Lemma scan_starts_at_total_summarized_messages_witness :
  0 < 6
  /\ 0 <= count_of (Some two_summarized) < Py.len (working_of three_answers)
  /\ scan_starts_at two_summaries_model len_counter
       (count_of (Some two_summarized)) three_answers (Some two_summarized) 6 0
       default_templates fresh
  /\ exists k, (0 < k)%nat
       /\ counter_calls
            (summarize_messages two_summaries_model len_counter
               three_answers (Some two_summarized) 6 0 default_templates fresh).2
          = counter_calls fresh ++ carve_log three_answers
            ++ singles (take k (drop (Z.to_nat (count_of (Some two_summarized)))
                                  (working_of three_answers))).
Proof.
  assert (0 < 6) as H1 by lia.
  assert (0 <= count_of (Some two_summarized) < Py.len (working_of three_answers)) as H2
    by (vm_compute; split; [discriminate|reflexivity]).
  split; [exact H1|]. split; [exact H2|].
  exact (scan_starts_at_total_summarized_messages two_summaries_model len_counter
           three_answers (Some two_summarized) 6 0 default_templates fresh H1 H2).
Defined.

(** Scenario 3: thirteen messages, six summarized before, six more now. *)
Lemma summarized_slice_and_new_state_witness :
  second_summary_call = (Return second_summary_result, second_summary_world)
  /\ invoke_calls second_summary_world
     = invoke_calls after_first_summary
       ++ [DEFAULT_EXISTING_SUMMARY_PROMPT (take 6 (drop 6 thirteen_messages))
             "First summary of the conversation."]
  /\ exists kept s',
       kept <> []
       /\ DEFAULT_EXISTING_SUMMARY_PROMPT (take 6 (drop 6 thirteen_messages))
            "First summary of the conversation."
          = summary_prompt default_templates (Some first_summary) kept
       /\ kept = take (length kept)
                   (Py.slice_from (working_of thirteen_messages)
                      (count_of (Some first_summary)))
       /\ (0 <= count_of (Some first_summary) ->
           kept = take (length kept)
                    (drop (Z.to_nat (count_of (Some first_summary)))
                       (working_of thirteen_messages)))
       /\ summary_info second_summary_result = Some s'
       /\ total_summarized_messages s' = count_of (Some first_summary) + Py.len kept
       /\ summarized_message_ids s' = id <$> kept
       /\ messages second_summary_result =
            final_prompt default_templates
              (system_placeholder (system_of thirteen_messages)) (summary s')
              (Py.slice_from (working_of thirteen_messages) (total_summarized_messages s')).
Proof.
  assert (second_summary_call = (Return second_summary_result, second_summary_world))
    as H1 by (vm_compute; reflexivity).
  assert (invoke_calls second_summary_world
          = invoke_calls after_first_summary
            ++ [DEFAULT_EXISTING_SUMMARY_PROMPT (take 6 (drop 6 thirteen_messages))
                  "First summary of the conversation."])
    as H2 by (vm_compute; reflexivity).
  split; [exact H1|]. split; [exact H2|].
  exact (summarized_slice_and_new_state two_summaries_model len_counter
           thirteen_messages (Some first_summary) 6 0 default_templates
           after_first_summary second_summary_result second_summary_world _ H1 H2).
Defined.

(** Both limits at six. *)
Lemma invalid_configuration_first_witness :
  6 >= 6
  /\ summarize_messages first_time_model len_counter
       nine_messages None 6 6 default_templates fresh
     = (Raise InvalidConfiguration, fresh).
Proof.
  assert (6 >= 6) as H1 by lia.
  split; [exact H1|].
  exact (invalid_configuration_first first_time_model len_counter
           nine_messages None 6 6 default_templates fresh H1).
Defined.

(** Scenario 3: the count goes from six to twelve. *)
Lemma total_summarized_messages_monotone_witness :
  second_summary_call = (Return second_summary_result, second_summary_world)
  /\ exists s',
       summary_info second_summary_result = Some s'
       /\ total_summarized_messages first_summary <= total_summarized_messages s'
       /\ (invoke_calls second_summary_world = invoke_calls after_first_summary ->
           s' = first_summary)
       /\ (invoke_calls second_summary_world <> invoke_calls after_first_summary ->
           total_summarized_messages first_summary < total_summarized_messages s').
Proof.
  assert (second_summary_call = (Return second_summary_result, second_summary_world))
    as H1 by (vm_compute; reflexivity).
  split; [exact H1|].
  exact (total_summarized_messages_monotone two_summaries_model len_counter
           thirteen_messages first_summary 6 0 default_templates
           after_first_summary second_summary_result second_summary_world H1).
Defined.

(** A budget of one token, all of it taken by the system message. *)
Lemma carve_out_undercuts_configuration_witness :
  type helpful_assistant = SystemMessage
  /\ 0 < 1
  /\ 1 - 0 <= len_counter [helpful_assistant]
  /\ (1 - len_counter [helpful_assistant]) * 2 - 0 <= len_counter [Human "Hello" "1"]
  /\ len_counter [Human "Hello" "1"] <= 1
  /\ let budget :=
       budget_of len_counter (helpful_assistant :: Human "Hello" "1" :: []) 1 in
     budget = 1 - len_counter [helpful_assistant]
     /\ budget <= 0
     /\ budget * 2 - 0 < 1
     /\ summarize_messages first_time_model len_counter
          (helpful_assistant :: Human "Hello" "1" :: []) None 1 0 default_templates fresh
        = (Raise (BudgetExceeded (budget * 2 - 0)),
           logged fresh [[helpful_assistant]; [Human "Hello" "1"]]).
Proof.
  assert (type helpful_assistant = SystemMessage) as H1 by reflexivity.
  assert (0 < 1) as H2 by lia.
  assert (1 - 0 <= len_counter [helpful_assistant]) as H3 by (vm_compute; discriminate).
  assert ((1 - len_counter [helpful_assistant]) * 2 - 0 <= len_counter [Human "Hello" "1"])
    as H4 by (vm_compute; discriminate).
  assert (len_counter [Human "Hello" "1"] <= 1) as H5 by (vm_compute; discriminate).
  split_and!; [exact H1|exact H2|exact H3|exact H4|exact H5|].
  exact (carve_out_undercuts_configuration first_time_model len_counter
           helpful_assistant (Human "Hello" "1") [] 1 0 default_templates fresh
           H1 H2 H3 H4).
Defined.

(** * Further properties of [summarize_messages] *)

Section Further.
Context {ModelState : Type}.
Variable model_invoke : ModelState -> list BaseMessage -> option string * ModelState.
Variable token_counter : list BaseMessage -> Z.
Local Abbreviation World := (@World ModelState).
Implicit Types (w : World) (msgs : list BaseMessage) (info : option SummaryInfo).
Implicit Types (templates : Templates) (prompt : list BaseMessage).

Lemma reattach_carved msgs : reattach (system_of msgs) (working_of msgs) = msgs.
Proof.
  unfold reattach, system_of, working_of.
  destruct msgs as [|m0 rest]; [done|]. by destruct (is_system m0).
Qed.

Lemma working_of_nil msgs :
  working_of msgs = [] <->
  msgs = [] \/ exists m0, msgs = [m0] /\ type m0 = SystemMessage.
Proof.
  unfold working_of, is_system. split.
  - destruct msgs as [|m0 rest]; [by left|].
    case_bool_decide; [|done]. intros ->. right. by exists m0.
  - intros [->|(m0 & -> & Hsystem)]; [done|].
    by rewrite bool_decide_eq_true_2.
Qed.

(** Lines 116-124: with no message, or only a system message, the call
    returns the messages as they are and the summary info it was given; the
    model is not invoked, the counter is called on the system message only,
    and the summary of the info is not put into the messages. *)
Theorem nothing_but_a_system_message msgs info max_tokens max_summary_tokens templates w :
  max_summary_tokens < max_tokens ->
  msgs = [] \/ (exists m0, msgs = [m0] /\ type m0 = SystemMessage) ->
  summarize_messages model_invoke token_counter
    msgs info max_tokens max_summary_tokens templates w
  = (Return {| messages := msgs; summary_info := info |}, logged w (carve_log msgs)).
Proof.
  intros Hconfig Hempty. apply working_of_nil in Hempty.
  unfold summarize_messages. rewrite bool_decide_eq_false_2 by lia.
  unfold bind at 1. rewrite carve_out_run. fold (carve_log msgs).
  pose proof (reattach_carved msgs) as Hsame. rewrite Hempty in Hsame |- *.
  by rewrite Hsame.
Qed.

(** Lines 216-225: a call returns no summary info exactly when it was given
    none and did not invoke the model, and then the messages returned are the
    messages given, system message included. *)
Theorem without_summary_messages_unchanged
    msgs info max_tokens max_summary_tokens templates w r w' :
  summarize_messages model_invoke token_counter
    msgs info max_tokens max_summary_tokens templates w = (Return r, w') ->
  (summary_info r = None <-> info = None /\ invoke_calls w' = invoke_calls w)
  /\ (summary_info r = None -> messages r = msgs).
Proof.
  intros Hrun. remember (Return r) as out eqn:Hr in Hrun.
  apply summarize_messages_run in Hrun.
  destruct Hrun as [| | |choice calls|kept calls response ms]; try done.
  - apply Return_inj in Hr; subst r. simpl.
    split; [split; [by intros ->|by intros [-> _]]|].
    intros _. pose proof (reattach_carved msgs) as Hsame. by rewrite Hwork in Hsame.
  - apply Return_inj in Hr; subst r. unfold assemble.
    destruct info as [s|]; simpl.
    { split; [split; [done|by intros [? _]]|done]. }
    split; [done|]. intros _. apply reattach_carved.
  - destruct response as [text|]; [|done].
    apply Return_inj in Hr; subst r. simpl. split; [|done].
    split; [done|]. intros [_ Hlog]. by apply snoc_neq in Hlog.
Qed.

(** Lines 199-215: when messages other than the system message are given
    and a summary info is returned, the messages returned are the final prompt
    over the system message, the summary and the messages from the returned
    count on; with the default templates that is the system message if any,
    one system message holding the summary, then those messages. *)
Theorem with_summary_messages_layout
    msgs info max_tokens max_summary_tokens templates w r w' s :
  working_of msgs <> [] ->
  summarize_messages model_invoke token_counter
    msgs info max_tokens max_summary_tokens templates w = (Return r, w') ->
  summary_info r = Some s ->
  let tail := Py.slice_from (working_of msgs) (total_summarized_messages s) in
  messages r
    = final_prompt templates (system_placeholder (system_of msgs)) (summary s) tail
  /\ (templates = default_templates ->
      messages r
      = system_placeholder (system_of msgs)
        ++ [system ("Summary of conversation earlier: " +:+ summary s)]
        ++ tail).
Proof.
  intros Hwork' Hrun Hs tail. remember (Return r) as out eqn:Hr in Hrun.
  apply summarize_messages_run in Hrun.
  assert (messages r
          = final_prompt templates (system_placeholder (system_of msgs)) (summary s) tail)
    as Hlayout.
  { destruct Hrun as [| | |choice calls|kept calls response ms]; try done.
    - apply Return_inj in Hr; subst r. unfold assemble in *.
      destruct info as [s0|]; [|done]. simpl in *. by injection Hs as <-.
    - destruct response as [text|]; [|done].
      apply Return_inj in Hr; subst r. simpl in *. by injection Hs as <-. }
  split; [done|]. intros ->. by rewrite Hlayout.
Qed.

(** Lines 127, 158, 192: a count that is not negative stays so, and a count
    within the messages left after the system message stays within them. *)
Theorem count_stays_within_the_messages
    msgs info max_tokens max_summary_tokens templates w r w' :
  0 <= count_of info ->
  summarize_messages model_invoke token_counter
    msgs info max_tokens max_summary_tokens templates w = (Return r, w') ->
  0 <= count_of (summary_info r)
  /\ (count_of info <= Py.len (working_of msgs) ->
      count_of (summary_info r) <= Py.len (working_of msgs)).
Proof.
  intros Htsm Hrun. remember (Return r) as out eqn:Hr in Hrun.
  apply summarize_messages_run in Hrun as Hcourse.
  destruct Hcourse as [| | |choice calls|kept calls response ms Hc Hw Hchoice Hkept];
    try done.
  - by apply Return_inj in Hr; subst r.
  - apply Return_inj in Hr; subst r. unfold assemble. by destruct info.
  - destruct response as [text|]; [|done].
    apply Return_inj in Hr; subst r. simpl.
    destruct (to_summarize_Some token_counter _ _ _ _ _ _ _
                (Hchoice (logged w (carve_log msgs))))
      as (n_tokens & idx & _ & _ & Htrimmed).
    apply Trimmed_slice_prefix in Htrimmed.
    rewrite PyFacts.slice_from_nonneg in Htrimmed by done.
    apply (f_equal length) in Htrimmed.
    rewrite length_take, length_drop in Htrimmed.
    assert (0 < length kept)%nat by (destruct kept; [done|simpl; lia]).
    unfold Py.len. split; lia.
Qed.

(** Lines 139, 158, 208: with a count at or past the end of the messages
    left after the system message, nothing is scanned and nothing summarized,
    and the messages returned hold the summary of the info and no other message
    than the system message. *)
Theorem count_past_the_end msgs info max_tokens max_summary_tokens templates w :
  max_summary_tokens < max_tokens ->
  working_of msgs <> [] ->
  Py.len (working_of msgs) <= count_of info ->
  exists s,
    info = Some s
    /\ summarize_messages model_invoke token_counter
         msgs info max_tokens max_summary_tokens templates w
       = (Return {| messages :=
                      final_prompt templates (system_placeholder (system_of msgs))
                        (summary s) [];
                    summary_info := Some s |},
          logged w (carve_log msgs)).
Proof.
  intros Hconfig Hwork Hpast.
  assert (0 < Py.len (working_of msgs)) as Hlen.
  { destruct (working_of msgs); [done|]. rewrite PyFacts.len_cons.
    pose proof (PyFacts.len_nonneg l). lia. }
  destruct info as [s|]; [|simpl in Hpast; lia]. exists s. split; [done|].
  simpl in Hpast.
  assert (drop (Z.to_nat (total_summarized_messages s)) (working_of msgs) = []) as Hdrop.
  { apply drop_ge. unfold Py.len in Hpast. lia. }
  unfold summarize_messages. rewrite bool_decide_eq_false_2 by lia.
  unfold bind at 1. rewrite carve_out_run. fold (carve_log msgs).
  destruct (working_of msgs) as [|m work] eqn:Hw; [done|]. rewrite <- Hw in *.
  unfold bind at 1, to_summarize at 1. unfold bind at 1.
  rewrite scan_done by (done || lia).
  unfold ret at 1. unfold select.
  assert (trim (if bool_decide (0 <= budget_of token_counter msgs max_tokens)
                then None
                else Some (Py.slice (working_of msgs) (total_summarized_messages s)
                             (Z.max 0 (total_summarized_messages s - 1) + 1)))
          = None
          \/ trim (if bool_decide (0 <= budget_of token_counter msgs max_tokens)
                   then None
                   else Some (Py.slice (working_of msgs) (total_summarized_messages s)
                                (Z.max 0 (total_summarized_messages s - 1) + 1)))
             = Some []) as [-> | ->].
  { case_bool_decide; [by left|]. right.
    assert (Py.clamp (working_of msgs) (total_summarized_messages s)
            = length (working_of msgs)) as Hclamp.
    { rewrite PyFacts.clamp_nonneg by lia. unfold Py.len in *. lia. }
    unfold Py.slice. by rewrite Hclamp, drop_all, take_nil. }
  - unfold bind, ret, assemble. simpl.
    by rewrite PyFacts.slice_from_nonneg, Hdrop by lia.
  - unfold bind, ret, assemble. simpl.
    by rewrite PyFacts.slice_from_nonneg, Hdrop by lia.
Qed.

(** *** The cutoff, the ceiling and the loop, once more *)

Lemma slice_take_drop (l : list BaseMessage) a b :
  0 <= a <= b -> Py.slice l a b = take (Z.to_nat (b - a)) (drop (Z.to_nat a) l).
Proof.
  intros [Ha Hb]. unfold Py.slice. rewrite !PyFacts.clamp_nonneg by lia.
  destruct (decide (length l <= Z.to_nat a)%nat) as [Hpast|Hin].
  - rewrite (Nat.min_r (Z.to_nat a)) by lia. by rewrite drop_all, drop_ge, !take_nil.
  - rewrite (Nat.min_l (Z.to_nat a)) by lia.
    destruct (decide (Z.to_nat b <= length l)%nat).
    + rewrite Nat.min_l by lia. f_equal. lia.
    + rewrite Nat.min_r by lia.
      rewrite !take_ge; [done|rewrite length_drop; lia|rewrite length_drop; lia].
Qed.

Lemma cutoff_spec max_tokens l : forall i n idx,
  (cutoff token_counter max_tokens l i n idx = idx
   /\ forall j, (j < length l)%nat ->
        max_tokens < n + total_cost token_counter (take (S j) l))
  \/ exists j, (j < length l)%nat
       /\ cutoff token_counter max_tokens l i n idx = i + Z.of_nat j
       /\ n + total_cost token_counter (take (S j) l) <= max_tokens.
Proof.
  induction l as [|m l IH]; intros i n idx.
  { left. split; [done|]. intros j Hj. simpl in Hj. lia. }
  cbn [cutoff].
  destruct (IH (i + 1) (n + cost token_counter m)
              (if bool_decide (n + cost token_counter m <= max_tokens) then i else idx))
    as [[Hsame Hover]|(j & Hj & Hcut & Hfit)].
  - case_bool_decide as Hm.
    + right. exists 0%nat. split; [simpl; lia|]. split; [lia|].
      unfold total_cost. simpl. lia.
    + left. split; [done|]. intros [|j] Hj.
      * unfold total_cost. simpl. lia.
      * specialize (Hover j ltac:(simpl in Hj; lia)).
        rewrite firstn_cons. unfold total_cost in *. simpl. lia.
  - right. exists (S j). split; [simpl; lia|]. split; [lia|].
    rewrite firstn_cons. unfold total_cost in *. simpl. lia.
Qed.

Lemma below_ceiling_or_reached max_total_tokens l : forall n,
  below_ceiling token_counter max_total_tokens n l
  \/ exists j, (j < length l)%nat
       /\ max_total_tokens <= n + total_cost token_counter (take (S j) l).
Proof.
  induction l as [|m l IH]; intros n; [by left|].
  destruct (decide (n + cost token_counter m < max_total_tokens)) as [Hm|Hm].
  - destruct (IH (n + cost token_counter m)) as [Hbelow|(j & Hj & Hreach)].
    + left. by split.
    + right. exists (S j). split; [simpl; lia|].
      rewrite firstn_cons. unfold total_cost in *. simpl. lia.
  - right. exists 0%nat. split; [simpl; lia|]. unfold total_cost. simpl. lia.
Qed.

Lemma nonneg_below_ceiling max_total_tokens l : forall n,
  Forall (fun m => 0 <= cost token_counter m) l ->
  n + total_cost token_counter l < max_total_tokens ->
  below_ceiling token_counter max_total_tokens n l.
Proof.
  induction l as [|m l IH]; intros n Hnonneg Htotal; [done|].
  apply Forall_cons in Hnonneg as [Hm Hl].
  pose proof (total_cost_nonneg token_counter l Hl) as Hrest.
  unfold total_cost in Htotal, Hrest. simpl in Htotal.
  split; [lia|]. apply IH; [done|]. unfold total_cost. lia.
Qed.

Lemma trim_loop_all_dropped l :
  Forall (fun m => must_drop m = true) l -> trim_loop (length l) l = [].
Proof.
  intros Hall.
  destruct (trim_loop_trimmed (length l) l ltac:(lia))
    as [popped Hsplit _ [Hnil|(m & Hlast & Hm)]]; [done|].
  apply last_Some in Hlast as [kept' Hkept].
  rewrite Hsplit, Hkept, !Forall_app, Forall_singleton in Hall.
  destruct Hall as [[_ Hdrop] _]. congruence.
Qed.

(** The call, when the scan returns and leaves nothing to summarize. *)
Lemma summarize_messages_pass
    msgs info max_tokens max_summary_tokens templates w choice w1 :
  max_summary_tokens < max_tokens ->
  working_of msgs <> [] ->
  to_summarize token_counter (working_of msgs) (count_of info)
    (budget_of token_counter msgs max_tokens) max_summary_tokens
    (logged w (carve_log msgs)) = (Return choice, w1) ->
  choice = None \/ choice = Some [] ->
  summarize_messages model_invoke token_counter
    msgs info max_tokens max_summary_tokens templates w
  = (Return (assemble templates (system_of msgs) (working_of msgs) info (count_of info)),
     w1).
Proof.
  intros Hconfig Hwork Hchoice Hnothing.
  unfold summarize_messages. rewrite bool_decide_eq_false_2 by lia.
  unfold bind at 1. rewrite carve_out_run. fold (carve_log msgs).
  destruct (working_of msgs) as [|m work] eqn:Hw; [done|].
  fold (count_of info). unfold bind at 1. rewrite Hchoice.
  by destruct Hnothing as [-> | ->].
Qed.

(** Indices from [-len] on are all in range. *)
Lemma scan_in_range msgs max_tokens max_total_tokens indices :
  forall n_tokens idx w e w',
  Forall (fun i => - Py.len msgs <= i < Py.len msgs) indices ->
  scan token_counter msgs max_tokens max_total_tokens indices n_tokens idx w
    = (Raise e, w') ->
  e = BudgetExceeded max_total_tokens.
Proof.
  induction indices as [|i indices IH]; intros n_tokens idx w e w' Hrange; [done|].
  apply Forall_cons in Hrange as [Hi Hrest].
  cbn [scan]. unfold bind at 1, getitem.
  assert (is_Some (Py.getitem msgs i)) as [m ->].
  { unfold Py.getitem, Py.len in *. case_bool_decide.
    - apply lookup_lt_is_Some. lia.
    - rewrite bool_decide_eq_true_2 by lia. apply lookup_lt_is_Some. lia. }
  unfold ret at 1. unfold bind at 1, count_tokens at 1.
  case_bool_decide.
  - unfold raise. by intros [= <- _].
  - by apply IH.
Qed.

Lemma range_bounds a b : Forall (fun i => a <= i < b) (Py.range a b).
Proof.
  unfold Py.range. apply Forall_fmap, Forall_forall. intros k Hk.
  apply elem_of_seq in Hk. simpl. lia.
Qed.

(** Lines 133, 143-158: the messages summarized cost no more than the
    budget -- unless nothing was summarized before and the first message alone
    is over the budget: that message is then summarized alone.  Costs are
    taken non-negative. *)
Theorem summarized_messages_fit_the_budget
    msgs info max_tokens max_summary_tokens templates w out w' prompt :
  0 <= count_of info ->
  Forall (fun m => 0 <= cost token_counter m) (working_of msgs) ->
  summarize_messages model_invoke token_counter
    msgs info max_tokens max_summary_tokens templates w = (out, w') ->
  invoke_calls w' = invoke_calls w ++ [prompt] ->
  exists kept,
    prompt = summary_prompt templates info kept
    /\ (total_cost token_counter kept <= budget_of token_counter msgs max_tokens
        \/ (count_of info = 0
            /\ exists m, kept = [m]
                 /\ working_of msgs !! 0%nat = Some m
                 /\ budget_of token_counter msgs max_tokens < cost token_counter m)).
Proof.
  intros Htsm Hnonneg Hrun Hlog.
  destruct (generated_inv _ _ _ _ _ _ _ _ _ _ _ Hrun Hlog)
    as (kept & calls & response & ms & n_tokens & idx
        & _ & Hwork & _ & Hscan & _ & Htrimmed & Hkept & -> & _ & _).
  exists kept. split; [done|].
  set (budget := budget_of token_counter msgs max_tokens) in *.
  set (unsummarized := drop (Z.to_nat (count_of info)) (working_of msgs)).
  destruct (scan_counts token_counter (working_of msgs) budget
              (budget * 2 - max_summary_tokens) unsummarized (count_of info) 0
              (Z.max 0 (count_of info - 1)) (logged w (carve_log msgs))
              Htsm eq_refl) as (k & _ & _ & Hret).
  destruct (Hret _ Hscan) as [_ Hbelow].
  rewrite (scan_ok token_counter (working_of msgs) budget _ unsummarized
             (count_of info) 0 _ _ Htsm eq_refl Hbelow) in Hscan.
  simpl in Hscan. injection Hscan as _ Hidx.
  destruct Htrimmed as [popped Hsplit Hpopped _].
  destruct (cutoff_spec budget unsummarized (count_of info) 0
              (Z.max 0 (count_of info - 1))) as [[Hsame Hover]|(j & Hj & Hcut & Hfit)].
  - (* no message fits: the cutoff is where it started *)
    right. rewrite Hsame in Hidx. subst idx.
    destruct (decide (count_of info = 0)) as [Hzero|Hpos].
    + split; [done|]. rewrite Hzero in *. simpl in Hsplit.
      rewrite slice_take_drop in Hsplit by lia. simpl in Hsplit.
      destruct (working_of msgs) as [|m work] eqn:Hw; [done|].
      exists m. simpl in Hsplit.
      destruct kept as [|m' kept]; [done|].
      injection Hsplit as <- Hrest. symmetry in Hrest.
      apply app_eq_nil in Hrest as [-> _].
      split_and!; [done..|].
      subst unsummarized. rewrite Hzero in Hover. simpl in Hover.
      specialize (Hover 0%nat ltac:(lia)).
      unfold total_cost in Hover. simpl in Hover. lia.
    + exfalso. rewrite slice_take_drop in Hsplit by lia.
      replace (Z.to_nat (Z.max 0 (count_of info - 1) + 1 - count_of info))
        with 0%nat in Hsplit by lia.
      rewrite take_0 in Hsplit. symmetry in Hsplit.
      by apply app_eq_nil in Hsplit as [-> _].
  - (* the cutoff is the last message that fits *)
    left. rewrite Hcut in Hidx. subst idx.
    rewrite slice_take_drop in Hsplit by lia.
    replace (Z.to_nat (count_of info + Z.of_nat j + 1 - count_of info))
      with (S j) in Hsplit by lia.
    fold unsummarized in Hsplit.
    assert (Forall (fun m => 0 <= cost token_counter m) popped) as Hpop.
    { assert (Forall (fun m => 0 <= cost token_counter m) (take (S j) unsummarized))
        as Htake by (by apply Forall_take, Forall_drop).
      rewrite Hsplit in Htake. by apply Forall_app in Htake as [_ ?]. }
    apply (total_cost_nonneg token_counter) in Hpop.
    rewrite Hsplit, total_cost_app in Hfit. lia.
Qed.

(** Lines 139-140: the index error is raised exactly by a count below minus
    the number of messages left after the system message (the configuration
    being valid and such messages being there); it is raised before any of
    them is counted. *)
Theorem index_error_iff_count_below_minus_len
    msgs info max_tokens max_summary_tokens templates w :
  max_summary_tokens < max_tokens ->
  working_of msgs <> [] ->
  let run := summarize_messages model_invoke token_counter
               msgs info max_tokens max_summary_tokens templates w in
  (run.1 = Raise IndexError <-> count_of info < - Py.len (working_of msgs))
  /\ (count_of info < - Py.len (working_of msgs) -> run.2 = logged w (carve_log msgs)).
Proof.
  intros Hconfig Hwork run.
  assert (0 < Py.len (working_of msgs)) as Hlen.
  { destruct (working_of msgs); [done|]. rewrite PyFacts.len_cons.
    pose proof (PyFacts.len_nonneg l). lia. }
  assert (count_of info < - Py.len (working_of msgs) ->
          run = (Raise IndexError, logged w (carve_log msgs))) as Hbelow.
  { intros Hcount. subst run.
    unfold summarize_messages. rewrite bool_decide_eq_false_2 by lia.
    unfold bind at 1. rewrite carve_out_run. fold (carve_log msgs).
    destruct (working_of msgs) as [|m work] eqn:Hw; [done|]. rewrite <- Hw in *.
    fold (count_of info). unfold bind at 1, to_summarize at 1. unfold bind at 1.
    rewrite PyFacts.range_cons by lia. cbn [scan]. unfold bind at 1, getitem.
    unfold Py.getitem. rewrite !bool_decide_eq_false_2 by lia. done. }
  split; [|by intros ->%Hbelow]. split; [|by intros ->%Hbelow].
  intros Hraise.
  destruct (decide (count_of info < - Py.len (working_of msgs))) as [|Hin]; [done|].
  exfalso. subst run.
  destruct (summarize_messages _ _ _ _ _ _ _ w) as [out w'] eqn:Hrun.
  simpl in Hraise. subst out. apply summarize_messages_run in Hrun.
  inversion Hrun as [| |e calls Hc Hw Hchoice| |kept calls response ms]; subst.
  - specialize (Hchoice w). unfold to_summarize, bind in Hchoice.
    destruct (scan _ _ _ _ _ _ _ w) as [[[n_tokens idx]|e] w1] eqn:Hscan; [done|].
    apply scan_in_range in Hscan; [congruence|].
    eapply Forall_impl; [apply range_bounds|]. simpl. intros i Hi. lia.
  - by destruct response.
Qed.

(** Lines 147-151: a budget error names the ceiling
    [2 * budget - max_summary_tokens], and is raised only when a running total
    over the unsummarized messages reached it; the model was not invoked. *)
Theorem budget_error_only_at_ceiling
    msgs info max_tokens max_summary_tokens templates w w' ceiling :
  0 <= count_of info ->
  summarize_messages model_invoke token_counter
    msgs info max_tokens max_summary_tokens templates w
  = (Raise (BudgetExceeded ceiling), w') ->
  let unsummarized := drop (Z.to_nat (count_of info)) (working_of msgs) in
  ceiling = budget_of token_counter msgs max_tokens * 2 - max_summary_tokens
  /\ invoke_calls w' = invoke_calls w
  /\ exists j, (j < length unsummarized)%nat
       /\ ceiling <= total_cost token_counter (take (S j) unsummarized).
Proof.
  intros Htsm Hrun unsummarized.
  remember (Raise (BudgetExceeded ceiling)) as out eqn:Hout in Hrun.
  apply summarize_messages_run in Hrun.
  destruct Hrun as [| |e calls Hc Hw Hchoice| |kept calls response ms]; try done.
  2:{ by destruct response. }
  injection Hout as ->.
  destruct (to_summarize_exception token_counter _ _ _ _ _ _ _ (Hchoice w))
    as [?|Hceiling]; [done|].
  injection Hceiling as ->. split_and!; [done..|].
  destruct (below_ceiling_or_reached
              (budget_of token_counter msgs max_tokens * 2 - max_summary_tokens)
              unsummarized 0) as [Hbelow|(j & Hj & Hreach)].
  - exfalso. specialize (Hchoice w). unfold to_summarize, bind in Hchoice.
    by rewrite (scan_ok token_counter (working_of msgs) _ _ unsummarized
                  (count_of info) 0 _ w Htsm eq_refl Hbelow) in Hchoice.
  - exists j. split; [done|]. lia.
Qed.

(** Lines 153-156, 199-215: with costs that are not negative and a budget
    above [max_summary_tokens], unsummarized messages that cost no more than
    the budget in total are left alone: the model is not invoked, the summary
    info comes back as given and, if there is one, its summary is put before
    the unsummarized messages again. *)
Theorem under_budget_nothing_summarized
    msgs info max_tokens max_summary_tokens templates w :
  max_summary_tokens < max_tokens ->
  working_of msgs <> [] ->
  0 <= count_of info ->
  let budget := budget_of token_counter msgs max_tokens in
  let unsummarized := drop (Z.to_nat (count_of info)) (working_of msgs) in
  Forall (fun m => 0 <= cost token_counter m) unsummarized ->
  max_summary_tokens < budget ->
  total_cost token_counter unsummarized <= budget ->
  summarize_messages model_invoke token_counter
    msgs info max_tokens max_summary_tokens templates w
  = (Return (assemble templates (system_of msgs) (working_of msgs) info (count_of info)),
     logged w (carve_log msgs ++ singles unsummarized)).
Proof.
  intros Hconfig Hwork Htsm budget unsummarized Hnonneg Hroom Hfits.
  apply summarize_messages_under; try done.
  apply nonneg_below_ceiling; [done|]. subst budget unsummarized. lia.
Qed.

(** Lines 165-174: when every unsummarized message is a human message or an
    AI message with tool calls, nothing is summarized however far over the
    budget they are (short of the ceiling): the model is not invoked and all
    of them come back.  Costs are taken non-negative. *)
Theorem only_droppable_nothing_summarized
    msgs info max_tokens max_summary_tokens templates w :
  max_summary_tokens < max_tokens ->
  working_of msgs <> [] ->
  0 <= count_of info ->
  let budget := budget_of token_counter msgs max_tokens in
  let unsummarized := drop (Z.to_nat (count_of info)) (working_of msgs) in
  Forall (fun m => 0 <= cost token_counter m) unsummarized ->
  total_cost token_counter unsummarized < budget * 2 - max_summary_tokens ->
  Forall (fun m => must_drop m = true) unsummarized ->
  summarize_messages model_invoke token_counter
    msgs info max_tokens max_summary_tokens templates w
  = (Return (assemble templates (system_of msgs) (working_of msgs) info (count_of info)),
     logged w (carve_log msgs ++ singles unsummarized)).
Proof.
  intros Hconfig Hwork Htsm budget unsummarized Hnonneg Hceiling Hdrop.
  assert (below_ceiling token_counter (budget * 2 - max_summary_tokens) 0 unsummarized)
    as Hbelow by (apply nonneg_below_ceiling; [done|subst budget unsummarized; lia]).
  rewrite <- logged_logged.
  eapply summarize_messages_pass; [done..| |].
  - unfold to_summarize, bind.
    rewrite (scan_ok token_counter (working_of msgs) budget _ unsummarized
               (count_of info) 0 _ _ Htsm eq_refl Hbelow).
    unfold ret. reflexivity.
  - unfold select. case_bool_decide; [by left|]. right.
    unfold trim. simpl. f_equal. apply trim_loop_all_dropped.
    set (idx := cutoff _ _ _ _ _ _).
    unfold Py.slice. apply Forall_take.
    rewrite PyFacts.clamp_nonneg by done.
    destruct (decide (Z.to_nat (count_of info) <= length (working_of msgs))%nat).
    + by rewrite Nat.min_l by lia.
    + rewrite Nat.min_r, drop_all by lia. constructor.
Qed.

End Further.

(** * The system message and the budget *)

Section SystemMessage.
Context {ModelState : Type}.
Variable model_invoke : ModelState -> list BaseMessage -> option string * ModelState.
Variable token_counter : list BaseMessage -> Z.
Local Abbreviation World := (@World ModelState).
Implicit Types (w : World) (msgs : list BaseMessage) (info : option SummaryInfo).
Implicit Types (templates : Templates) (prompt : list BaseMessage).

(** The cutoff is where it started when no running total fits, and the last
    index whose running total fits otherwise. *)
Lemma cutoff_last max_tokens l : forall i n idx,
  (cutoff token_counter max_tokens l i n idx = idx
   /\ forall j, (j < length l)%nat ->
        max_tokens < n + total_cost token_counter (take (S j) l))
  \/ exists j, (j < length l)%nat
       /\ cutoff token_counter max_tokens l i n idx = i + Z.of_nat j
       /\ n + total_cost token_counter (take (S j) l) <= max_tokens
       /\ forall j', (j < j' < length l)%nat ->
            max_tokens < n + total_cost token_counter (take (S j') l).
Proof.
  induction l as [|m l IH]; intros i n idx.
  { left. split; [done|]. intros j Hj. simpl in Hj. lia. }
  cbn [cutoff].
  destruct (IH (i + 1) (n + cost token_counter m)
              (if bool_decide (n + cost token_counter m <= max_tokens) then i else idx))
    as [[Hsame Hover]|(j & Hj & Hcut & Hfit & Hlast)].
  - case_bool_decide as Hm.
    + right. exists 0%nat. split; [simpl; lia|]. split; [lia|].
      split; [unfold total_cost; simpl; lia|].
      intros [|j'] Hj'; [lia|].
      specialize (Hover j' ltac:(simpl in Hj'; lia)).
      rewrite firstn_cons. unfold total_cost in *. simpl. lia.
    + left. split; [done|]. intros [|j] Hj.
      * unfold total_cost. simpl. lia.
      * specialize (Hover j ltac:(simpl in Hj; lia)).
        rewrite firstn_cons. unfold total_cost in *. simpl. lia.
  - right. exists (S j). split; [simpl; lia|]. split; [lia|].
    split; [rewrite firstn_cons; unfold total_cost in *; simpl; lia|].
    intros [|j'] Hj'; [lia|].
    specialize (Hlast j' ltac:(simpl in Hj'; lia)).
    rewrite firstn_cons. unfold total_cost in *. simpl. lia.
Qed.

(** The call, when the scan returns and leaves something to summarize. *)
Lemma summarize_messages_invokes
    msgs info max_tokens max_summary_tokens templates w kept w1 response ms :
  max_summary_tokens < max_tokens ->
  working_of msgs <> [] ->
  to_summarize token_counter (working_of msgs) (count_of info)
    (budget_of token_counter msgs max_tokens) max_summary_tokens
    (logged w (carve_log msgs)) = (Return (Some kept), w1) ->
  kept <> [] ->
  model_invoke (model_state w1) (summary_prompt templates info kept) = (response, ms) ->
  summarize_messages model_invoke token_counter
    msgs info max_tokens max_summary_tokens templates w
  = (match response with
     | Some text =>
         Return (assemble templates (system_of msgs) (working_of msgs)
                   (Some (extended info kept text))
                   (count_of info + Py.len kept))
     | None => Raise ModelError
     end,
     invoked w1 (summary_prompt templates info kept) ms).
Proof.
  intros Hconfig Hwork Hchoice Hkept Hmodel.
  unfold summarize_messages. rewrite bool_decide_eq_false_2 by lia.
  unfold bind at 1. rewrite carve_out_run. fold (carve_log msgs).
  destruct (working_of msgs) as [|m work] eqn:Hw; [done|].
  fold (count_of info). unfold bind at 1. rewrite Hchoice.
  destruct kept as [|m' kept]; [done|].
  unfold bind at 1 2. unfold invoke at 1. rewrite Hmodel.
  by destruct response.
Qed.

(** C8: for messages that start with a system message, under the default
    templates.  A result starts with that message; the summarized messages are
    taken from the messages after it; the summary info returned is the prior
    one or one built from the response, the ids and the count alone.  The scan
    runs on [max_tokens] less the cost of the system message, the budget: with
    a valid configuration, messages after the system message and a prior count
    that is not negative, the budget error is raised exactly when a running
    total over the unsummarized messages reaches twice the budget less
    [max_summary_tokens]; short of that, a total within the budget leaves the
    messages and the summary info alone, and a total over the budget makes the
    candidate slice end at the last message whose running total is within the
    budget (at the starting index when there is none), what the loop leaves of
    it being summarized by one invocation of the model. *)
Theorem system_message_preserved
    m0 rest info max_tokens max_summary_tokens w out w' :
  type m0 = SystemMessage ->
  summarize_messages model_invoke token_counter
    (m0 :: rest) info max_tokens max_summary_tokens default_templates w = (out, w') ->
  let budget := max_tokens - token_counter [m0] in
  let ceiling := budget * 2 - max_summary_tokens in
  let unsummarized := drop (Z.to_nat (count_of info)) rest in
  let running := fun j : nat => total_cost token_counter (take (S j) unsummarized) in
  let unchanged :=
    Return (assemble default_templates (Some m0) rest info (count_of info)) in
  let counted := logged w ([m0] :: singles unsummarized) in
  (forall r, out = Return r -> head (messages r) = Some m0)
  /\ (forall prompt, invoke_calls w' = invoke_calls w ++ [prompt] ->
       exists kept,
         prompt = summary_prompt default_templates info kept
         /\ kept = take (length kept) (Py.slice_from rest (count_of info))
         /\ (0 <= count_of info -> budget < total_cost token_counter unsummarized))
  /\ (0 <= count_of info -> total_cost token_counter unsummarized <= budget ->
       forall r, out = Return r ->
         summary_info r = info /\ invoke_calls w' = invoke_calls w)
  /\ (forall c, out = Raise (BudgetExceeded c) -> c = ceiling)
  /\ (forall r, out = Return r ->
       summary_info r = info
       \/ exists kept text, summary_info r = Some (extended info kept text))
  /\ (max_summary_tokens < max_tokens -> rest <> [] -> 0 <= count_of info ->
      ((exists j, (j < length unsummarized)%nat /\ ceiling <= running j)
       <-> out = Raise (BudgetExceeded ceiling))
      /\ ((forall j, (j < length unsummarized)%nat -> running j < ceiling) ->
          (total_cost token_counter unsummarized <= budget ->
           out = unchanged /\ w' = counted)
          /\ (budget < total_cost token_counter unsummarized ->
              exists idx kept,
                ((idx = Z.max 0 (count_of info - 1)
                  /\ forall j, (j < length unsummarized)%nat -> budget < running j)
                 \/ exists j, (j < length unsummarized)%nat
                      /\ idx = count_of info + Z.of_nat j
                      /\ running j <= budget
                      /\ forall j', (j < j' < length unsummarized)%nat ->
                           budget < running j')
                /\ Trimmed (Py.slice rest (count_of info) (idx + 1)) kept
                /\ (kept = [] -> out = unchanged /\ w' = counted)
                /\ (kept <> [] ->
                    exists response ms,
                      model_invoke (model_state w)
                        (summary_prompt default_templates info kept) = (response, ms)
                      /\ out = match response with
                               | Some text =>
                                   Return (assemble default_templates (Some m0) rest
                                             (Some (extended info kept text))
                                             (count_of info + Py.len kept))
                               | None => Raise ModelError
                               end
                      /\ w' = invoked counted
                                (summary_prompt default_templates info kept) ms)))).
Proof.
  intros Hsystem Hrun budget ceiling unsummarized running unchanged counted.
  destruct (carve_out_system token_counter m0 rest max_tokens Hsystem)
    as (Hsys & Hwork & Hbudget & Hlog).
  apply summarize_messages_run in Hrun as Hcourse.
  split_and!.
  - intros r Hr.
    destruct Hcourse as [| | |choice calls|kept calls response ms]; try done.
    + apply Return_inj in Hr as <-. rewrite Hsys. done.
    + apply Return_inj in Hr as <-. rewrite Hsys, Hwork. unfold assemble. destruct info; done.
    + destruct response as [text|]; [|done].
      apply Return_inj in Hr as <-. rewrite Hsys. done.
  - intros prompt Hprompt.
    destruct (generated_inv _ _ _ _ _ _ _ _ _ _ _ Hrun Hprompt)
      as (kept & calls & response & ms & n_tokens & idx
          & _ & _ & Hchoice & Hscan & Hover & Htrimmed & Hkept & -> & Hout & _).
    rewrite Hwork, Hbudget in *. exists kept. split_and!; [done| |].
    + by apply Trimmed_slice_prefix in Htrimmed.
    + intros Htsm.
      destruct (scan_counts token_counter rest budget
                  (budget * 2 - max_summary_tokens) unsummarized (count_of info) 0
                  (Z.max 0 (count_of info - 1)) (logged w (carve_log (m0 :: rest)))
                  Htsm eq_refl) as (k & _ & _ & Hret).
      destruct (Hret _ Hscan) as [_ Hbelow].
      rewrite (scan_ok token_counter rest budget _ unsummarized (count_of info)
                 0 _ _ Htsm eq_refl Hbelow) in Hscan.
      simpl in Hscan. injection Hscan as <- _. lia.
  - intros Htsm Hfits r Hr.
    destruct Hcourse as [| | |choice calls Hc Hw Hchoice
                         |kept calls response ms Hc Hw Hchoice Hkept]; try done.
    + by apply Return_inj in Hr as <-.
    + apply Return_inj in Hr as <-. unfold assemble. destruct info; done.
    + exfalso. rewrite Hwork, Hbudget in Hchoice.
      destruct (to_summarize_returns token_counter _ _ _ _ _ _ _ Htsm (Hchoice w))
        as (_ & _ & Hnone).
      unfold select in Hnone. rewrite bool_decide_eq_true_2 in Hnone by done.
      done.
  - intros c Hr.
    destruct Hcourse as [| |e calls Hc Hw Hchoice| |kept calls response ms]; try done.
    + rewrite Hwork, Hbudget in Hchoice.
      destruct (to_summarize_exception token_counter _ _ _ _ _ _ _ (Hchoice w))
        as [?|H]; subst ceiling budget; congruence.
    + by destruct response.
  - intros r Hr.
    destruct Hcourse as [| | |choice calls|kept calls response ms]; try done.
    + apply Return_inj in Hr as <-. by left.
    + apply Return_inj in Hr as <-. left. unfold assemble. destruct info; done.
    + destruct response as [text|]; [|done].
      apply Return_inj in Hr as <-. right. by exists kept, text.
  - clear Hcourse. intros Hconfig Hrest Htsm.
    assert (working_of (m0 :: rest) <> []) as Hwork' by (by rewrite Hwork).
    assert (below_ceiling token_counter ceiling 0 unsummarized ->
            forall w0,
              to_summarize token_counter rest (count_of info) budget
                max_summary_tokens w0
              = (Return
                   (trim (select rest (count_of info)
                            (total_cost token_counter unsummarized)
                            (cutoff token_counter budget unsummarized (count_of info)
                               0 (Z.max 0 (count_of info - 1)))
                            budget)),
                 logged w0 (singles unsummarized))) as Hscan.
    { intros Hbelow w0. unfold to_summarize, bind.
      rewrite (scan_ok token_counter rest budget _ unsummarized (count_of info)
                 0 _ w0 Htsm eq_refl Hbelow).
      unfold ret. by rewrite Z.add_0_l. }
    split.
    + split.
      * intros (j & Hj & Hreach).
        pose proof (summarize_messages_raises model_invoke token_counter
                      (m0 :: rest) info max_tokens max_summary_tokens
                      default_templates w j Hconfig Htsm) as Hraises.
        cbv zeta in Hraises. rewrite Hwork, Hbudget in Hraises.
        destruct (Hraises Hj Hreach) as (k & _ & Hraise).
        rewrite Hrun in Hraise. by apply (f_equal fst) in Hraise.
      * intros Hout.
        destruct (below_ceiling_or_reached token_counter ceiling unsummarized 0)
          as [Hbelow|(j & Hj & Hreach)].
        2:{ exists j. split; [done|]. subst running. simpl. lia. }
        exfalso. apply summarize_messages_run in Hrun.
        destruct Hrun as [| |e calls Hc Hw Hchoice| |kept calls response ms];
          try done.
        -- rewrite Hwork, Hbudget in Hchoice. specialize (Hchoice w).
           fold budget in Hchoice. by rewrite (Hscan Hbelow w) in Hchoice.
        -- by destruct response.
    + intros Hall.
      assert (below_ceiling token_counter ceiling 0 unsummarized) as Hbelow.
      { destruct (below_ceiling_or_reached token_counter ceiling unsummarized 0)
          as [Hbelow|(j & Hj & Hreach)]; [done|].
        specialize (Hall j Hj). subst running. simpl in Hall. lia. }
      assert (to_summarize token_counter (working_of (m0 :: rest)) (count_of info)
                (budget_of token_counter (m0 :: rest) max_tokens) max_summary_tokens
                (logged w (carve_log (m0 :: rest)))
              = (Return
                   (trim (select rest (count_of info)
                            (total_cost token_counter unsummarized)
                            (cutoff token_counter budget unsummarized (count_of info)
                               0 (Z.max 0 (count_of info - 1)))
                            budget)),
                 counted)) as Hchoice.
      { rewrite Hwork, Hbudget, Hlog. fold budget.
        rewrite (Hscan Hbelow). by rewrite logged_logged. }
      clear Hscan. rename Hchoice into Hscan.
      split.
      * intros Hfits. unfold select in Hscan.
        rewrite bool_decide_eq_true_2 in Hscan by done.
        pose proof (summarize_messages_pass model_invoke token_counter
                      (m0 :: rest) info max_tokens max_summary_tokens
                      default_templates w None counted Hconfig Hwork' Hscan
                      ltac:(by left)) as Hpass.
        rewrite Hrun, Hsys, Hwork in Hpass.
        split; [by apply (f_equal fst) in Hpass|by apply (f_equal snd) in Hpass].
      * intros Hover. unfold select in Hscan.
        rewrite bool_decide_eq_false_2 in Hscan by lia.
        set (idx := cutoff token_counter budget unsummarized (count_of info)
                      0 (Z.max 0 (count_of info - 1))) in *.
        set (candidate := Py.slice rest (count_of info) (idx + 1)) in *.
        exists idx, (trim_loop (length candidate) candidate).
        split_and!.
        -- destruct (cutoff_last budget unsummarized (count_of info) 0
                       (Z.max 0 (count_of info - 1)))
             as [[Hsame Hnone]|(j & Hj & Hcut & Hfit & Hlast)].
           ++ left. split; [done|]. intros j Hj. specialize (Hnone j Hj).
              subst running. simpl. lia.
           ++ right. exists j. subst running. simpl. split_and!; [done|done|lia|].
              intros j' Hj'. specialize (Hlast j' Hj'). lia.
        -- apply trim_loop_trimmed. lia.
        -- intros Hnil. simpl in Hscan. rewrite Hnil in Hscan.
           pose proof (summarize_messages_pass model_invoke token_counter
                         (m0 :: rest) info max_tokens max_summary_tokens
                         default_templates w (Some []) counted Hconfig Hwork' Hscan
                         ltac:(by right)) as Hpass.
           rewrite Hrun, Hsys, Hwork in Hpass.
           split; [by apply (f_equal fst) in Hpass|by apply (f_equal snd) in Hpass].
        -- intros Hkept. simpl in Hscan.
           destruct (model_invoke (model_state w)
                       (summary_prompt default_templates info
                          (trim_loop (length candidate) candidate)))
             as [response ms] eqn:Hmodel.
           exists response, ms. split; [done|].
           pose proof (summarize_messages_invokes (m0 :: rest) info max_tokens
                         max_summary_tokens default_templates w
                         (trim_loop (length candidate) candidate) counted response ms
                         Hconfig Hwork' Hscan Hkept Hmodel) as Hinvokes.
           rewrite Hrun, Hsys, Hwork in Hinvokes.
           split; [by apply (f_equal fst) in Hinvokes
                  |by apply (f_equal snd) in Hinvokes].
Qed.

End SystemMessage.

(** Scenario 4: a system message ahead of the nine messages. *)
Lemma system_message_preserved_witness :
  type helpful_assistant = SystemMessage
  /\ system_message_call = (Return system_message_result, system_message_world)
  /\ let model_invoke := MockChatModel ["Summary with system message present."] in
     let out := Return system_message_result in
     let budget := 6 - len_counter [helpful_assistant] in
     let ceiling := budget * 2 - 0 in
     let unsummarized := drop (Z.to_nat (count_of None)) nine_messages in
     let running := fun j : nat => total_cost len_counter (take (S j) unsummarized) in
     let unchanged :=
       Return (assemble default_templates (Some helpful_assistant) nine_messages
                 None (count_of None)) in
     let counted := logged fresh ([helpful_assistant] :: singles unsummarized) in
     (forall r, out = Return r -> head (messages r) = Some helpful_assistant)
     /\ (forall prompt,
          invoke_calls system_message_world = invoke_calls fresh ++ [prompt] ->
          exists kept,
            prompt = summary_prompt default_templates None kept
            /\ kept = take (length kept) (Py.slice_from nine_messages (count_of None))
            /\ (0 <= count_of None -> budget < total_cost len_counter unsummarized))
     /\ (0 <= count_of None -> total_cost len_counter unsummarized <= budget ->
          forall r, out = Return r ->
            summary_info r = None
            /\ invoke_calls system_message_world = invoke_calls fresh)
     /\ (forall c, out = Raise (BudgetExceeded c) -> c = ceiling)
     /\ (forall r, out = Return r ->
          summary_info r = None
          \/ exists kept text, summary_info r = Some (extended None kept text))
     /\ (0 < 6 -> nine_messages <> [] -> 0 <= count_of None ->
         ((exists j, (j < length unsummarized)%nat /\ ceiling <= running j)
          <-> out = Raise (BudgetExceeded ceiling))
         /\ ((forall j, (j < length unsummarized)%nat -> running j < ceiling) ->
             (total_cost len_counter unsummarized <= budget ->
              out = unchanged /\ system_message_world = counted)
             /\ (budget < total_cost len_counter unsummarized ->
                 exists idx kept,
                   ((idx = Z.max 0 (count_of None - 1)
                     /\ forall j, (j < length unsummarized)%nat -> budget < running j)
                    \/ exists j, (j < length unsummarized)%nat
                         /\ idx = count_of None + Z.of_nat j
                         /\ running j <= budget
                         /\ forall j', (j < j' < length unsummarized)%nat ->
                              budget < running j')
                   /\ Trimmed (Py.slice nine_messages (count_of None) (idx + 1)) kept
                   /\ (kept = [] -> out = unchanged /\ system_message_world = counted)
                   /\ (kept <> [] ->
                       exists response ms,
                         model_invoke (model_state fresh)
                           (summary_prompt default_templates None kept) = (response, ms)
                         /\ out = match response with
                                  | Some text =>
                                      Return (assemble default_templates
                                                (Some helpful_assistant) nine_messages
                                                (Some (extended None kept text))
                                                (count_of None + Py.len kept))
                                  | None => Raise ModelError
                                  end
                         /\ system_message_world
                            = invoked counted
                                (summary_prompt default_templates None kept) ms)))).
Proof.
  assert (type helpful_assistant = SystemMessage) as H1 by reflexivity.
  assert (system_message_call = (Return system_message_result, system_message_world))
    as H2 by (vm_compute; reflexivity).
  split; [exact H1|]. split; [exact H2|].
  exact (system_message_preserved (MockChatModel ["Summary with system message present."])
           len_counter helpful_assistant nine_messages None 6 0 fresh
           (Return system_message_result) system_message_world H1 H2).
Defined.


(** * [SummarizationNode._func] *)

Section Node.
Context {ModelState : Type}.
Variable model : ModelState -> list BaseMessage -> option string * ModelState.
Variable token_counter : list BaseMessage -> Z.
Local Abbreviation World := (@World ModelState).
Local Abbreviation _func := (SummarizationNode._func model token_counter).
Local Abbreviation call := (SummarizationNode.call model token_counter).
Implicit Types (self : SummarizationNode.t) (input : Input) (w : World).
Implicit Types (d : gmap string Value) (context : gmap string ContextEntry).

Lemma func_step self input run :
  _func self input = Some run -> Step model token_counter self input run.
Proof.
  unfold SummarizationNode._func.
  destruct (SummarizationNode.fields input) as [d|] eqn:Hfields.
  2:{ intros [= <-]. apply step_invalid. by destruct input. }
  destruct (d !! SummarizationNode.messages_key self) as [messages|] eqn:Hmessages.
  2:{ intros [= <-]. eapply step_missing; eauto. }
  assert (messages = NoneValue \/ messages <> NoneValue) as [->|Hthere]
    by (destruct messages; auto).
  { intros [= <-]. eapply step_missing; eauto. }
  destruct (d !! "context") as [c|] eqn:Hcontext; simpl.
  - destruct c as [|l|context|repr [|]].
    + destruct messages; [done|..]; intros [= <-];
        eapply step_attribute; eauto.
    + destruct messages; [done|..]; intros [= <-];
        eapply step_attribute; eauto.
    + destruct messages as [|msgs|dm|repr has_get]; [done| |done..].
      unfold existing_of.
      pose proof (step_call model token_counter self input d msgs context
                    Hfields Hmessages) as Hcall.
      rewrite Hcontext in Hcall. specialize (Hcall eq_refl).
      unfold existing_of in Hcall.
      destruct (context !! "summary_info") as [[s| |repr]|];
        [intros [= <-]|intros [= <-]|done|intros [= <-]]; by apply Hcall.
    + by destruct messages.
    + destruct messages; [done|..]; intros [= <-];
        eapply step_attribute; eauto.
  - destruct messages as [|msgs|dm|repr has_get]; [done| |done..].
    pose proof (step_call model token_counter self input d msgs ∅
                  Hfields Hmessages) as Hcall.
    rewrite Hcontext in Hcall. specialize (Hcall eq_refl).
    unfold existing_of in Hcall. rewrite lookup_empty in *.
    intros [= <-]. by apply Hcall.
Qed.

Lemma call_failure self msgs context existing w e w' :
  call self msgs context existing w = (Failure e, w') -> exists e0, e = Raised e0.
Proof.
  unfold SummarizationNode.call.
  destruct (summarize_messages _ _ _ _ _ _ _ w) as [[r|e0] w1]; [done|].
  intros [= <- _]. by exists e0.
Qed.

(** Lines 255-269: the step fails by itself in three ways, each leaving the
    world as it was: on an input that is neither a dict nor a model; on
    messages that are missing or [None], whatever the context is; on a context
    that has no [get] -- [None], a list, or any other object without that
    attribute -- when messages are there. *)
Theorem node_fails_before_summarizing self input run w e w' :
  _func self input = Some run ->
  run w = (Failure e, w') ->
  (forall e0, e <> Raised e0) ->
  w' = w
  /\ (e = InvalidInputType <-> input = OtherInput)
  /\ (e = MissingMessages <->
      exists d, SummarizationNode.fields input = Some d
        /\ (d !! SummarizationNode.messages_key self = None
            \/ d !! SummarizationNode.messages_key self = Some NoneValue))
  /\ (e = AttributeError <->
      exists d messages,
        SummarizationNode.fields input = Some d
        /\ d !! SummarizationNode.messages_key self = Some messages
        /\ messages <> NoneValue
        /\ (d !! "context" = Some NoneValue
            \/ (exists l, d !! "context" = Some (MessagesValue l))
            \/ exists repr, d !! "context" = Some (OtherValue repr false))).
Proof.
  intros Hfunc Hrun Hown. apply func_step in Hfunc.
  destruct Hfunc as [Hinput|d Hfields Hmessages|d messages Hfields Hmessages Hthere Hcontext
                    |d msgs context Hfields Hmessages Hcontext Hentry].
  - injection Hrun as <- <-. subst input. split_and!; [done|done| |].
    + split; [done|]. by intros (d & ? & _).
    + split; [done|]. by intros (d & m & ? & _).
  - injection Hrun as <- <-. split_and!; [done| | |].
    + split; [done|]. intros ->. done.
    + split; [|done]. intros _. by exists d.
    + split; [done|]. intros (d' & m & Hd' & Hm & Hne & _).
      rewrite Hfields in Hd'. injection Hd' as <-.
      destruct Hmessages as [Hnone|Hnone]; rewrite Hnone in Hm; congruence.
  - injection Hrun as <- <-. split_and!; [done| | |].
    + split; [done|]. intros ->. done.
    + split; [done|]. intros (d' & Hd' & Hnone).
      rewrite Hfields in Hd'. injection Hd' as <-.
      destruct Hnone as [Hnone|Hnone]; rewrite Hnone in Hmessages; congruence.
    + split; [|done]. intros _. by exists d, messages.
  - apply call_failure in Hrun as [e0 ->]. by destruct (Hown e0).
Qed.

Lemma call_update self msgs context existing w su w' :
  call self msgs context existing w = (Update su, w') ->
  exists r,
    summarize_messages model token_counter msgs existing
      (SummarizationNode.max_tokens self) (SummarizationNode.max_summary_tokens self)
      (SummarizationNode.templates self) w = (Return r, w')
    /\ su = SummarizationNode.state_update self context r.
Proof.
  unfold SummarizationNode.call.
  destruct (summarize_messages _ _ _ _ _ _ _ w) as [[r|e0] w1]; [|done].
  intros [= <- <-]. by exists r.
Qed.

(** Lines 267-285: the update a step returns.  It comes from one call of
    [summarize_messages] on the messages and the summary info of the context.
    Without a summary info in the result it holds the messages and nothing
    else.  With one it also holds, under ["context"], the context given with
    the summary info put in and the other keys as they were -- and if the
    output key is ["context"] itself, the messages are overwritten by it. *)
Theorem node_update self input run w su w' :
  _func self input = Some run ->
  run w = (Update su, w') ->
  exists d msgs context r,
    SummarizationNode.fields input = Some d
    /\ d !! SummarizationNode.messages_key self = Some (MessagesValue msgs)
    /\ default (DictValue ∅) (d !! "context") = DictValue context
    /\ summarize_messages model token_counter msgs (existing_of context)
         (SummarizationNode.max_tokens self) (SummarizationNode.max_summary_tokens self)
         (SummarizationNode.templates self) w = (Return r, w')
    /\ (summary_info r = None ->
        su = {[ SummarizationNode.output_messages_key self := MessagesValue (messages r) ]})
    /\ (forall s, summary_info r = Some s ->
        exists context',
          su !! "context" = Some (DictValue context')
          /\ context' !! "summary_info" = Some (SummaryEntry s)
          /\ (forall key, key <> "summary_info" -> context' !! key = context !! key)
          /\ (SummarizationNode.output_messages_key self <> "context" ->
              su !! SummarizationNode.output_messages_key self
              = Some (MessagesValue (messages r)))
          /\ (forall key, key <> "context" ->
              key <> SummarizationNode.output_messages_key self -> su !! key = None)).
Proof.
  intros Hfunc Hrun. apply func_step in Hfunc.
  destruct Hfunc as [Hinput|d Hfields Hmessages|d messages Hfields Hmessages Hthere Hcontext
                    |d msgs context Hfields Hmessages Hcontext Hentry]; try done.
  apply call_update in Hrun as (r & Hrun & ->).
  exists d, msgs, context, r. split_and!; [done..| |].
  - unfold SummarizationNode.state_update. by intros ->.
  - intros s Hs. unfold SummarizationNode.state_update. rewrite Hs.
    exists (<["summary_info" := SummaryEntry s]> context).
    split_and!.
    + by rewrite lookup_insert_eq.
    + by rewrite lookup_insert_eq.
    + intros key Hkey. by rewrite lookup_insert_ne.
    + intros Hkey. rewrite lookup_insert_ne by done. by rewrite lookup_singleton_eq.
    + intros key Hcontext' Hkey.
      rewrite lookup_insert_ne by done. by rewrite lookup_singleton_ne.
Qed.

(** Lines 267-277: a step raises what [summarize_messages] raises, leaves the
    world as that call leaves it, and so invokes the model at most once. *)
Theorem node_adds_no_call self input run w :
  _func self input = Some run ->
  (forall e0 w', run w = (Failure (Raised e0), w') ->
     exists d msgs context,
       SummarizationNode.fields input = Some d
       /\ d !! SummarizationNode.messages_key self = Some (MessagesValue msgs)
       /\ default (DictValue ∅) (d !! "context") = DictValue context
       /\ summarize_messages model token_counter msgs (existing_of context)
            (SummarizationNode.max_tokens self)
            (SummarizationNode.max_summary_tokens self)
            (SummarizationNode.templates self) w = (Raise e0, w'))
  /\ (invoke_calls (run w).2 = invoke_calls w
      \/ exists prompt, invoke_calls (run w).2 = invoke_calls w ++ [prompt]).
Proof.
  intros Hfunc. apply func_step in Hfunc.
  destruct Hfunc as [Hinput|d Hfields Hmessages|d messages Hfields Hmessages Hthere Hcontext
                    |d msgs context Hfields Hmessages Hcontext Hentry];
    try (split; [done|by left]).
  split.
  - intros e0 w'. unfold SummarizationNode.call.
    destruct (summarize_messages _ _ _ _ _ _ _ w) as [[r|e1] w1] eqn:Hrun; [done|].
    intros [= <- <-]. by exists d, msgs, context.
  - destruct (invoked_iff_something_to_summarize model token_counter msgs
                (existing_of context)
                (SummarizationNode.max_tokens self)
                (SummarizationNode.max_summary_tokens self)
                (SummarizationNode.templates self) w) as [Hmost _].
    unfold SummarizationNode.call.
    by destruct (summarize_messages _ _ _ _ _ _ _ w) as [[r|e1] w1].
Qed.

Lemma no_summary_info_none_given
    msgs info max_tokens max_summary_tokens templates w r w' :
  summarize_messages model token_counter
    msgs info max_tokens max_summary_tokens templates w = (Return r, w') ->
  summary_info r = None -> info = None.
Proof.
  intros Hrun. remember (Return r) as out eqn:Hr in Hrun.
  apply summarize_messages_run in Hrun.
  destruct Hrun as [| | |choice calls|kept calls response ms]; try done.
  - by apply Return_inj in Hr; subst r.
  - apply Return_inj in Hr; subst r. unfold assemble. by destruct info.
  - destruct response as [text|]; [|done]. by apply Return_inj in Hr; subst r.
Qed.

(** Lines 256-257, 269, 279-285: what a step writes is what the next step
    reads.  With the messages kept under a key that is neither the output key
    nor ["context"], a step on the input dict overwritten by the update calls
    [summarize_messages] on the same messages with the summary info the first
    step returned. *)
Theorem node_reads_back_its_update self d run w su w1 :
  _func self (DictInput d) = Some run ->
  run w = (Update su, w1) ->
  SummarizationNode.messages_key self <> SummarizationNode.output_messages_key self ->
  SummarizationNode.messages_key self <> "context" ->
  SummarizationNode.output_messages_key self <> "context" ->
  exists msgs context r,
    d !! SummarizationNode.messages_key self = Some (MessagesValue msgs)
    /\ summarize_messages model token_counter msgs (existing_of context)
         (SummarizationNode.max_tokens self) (SummarizationNode.max_summary_tokens self)
         (SummarizationNode.templates self) w = (Return r, w1)
    /\ exists context',
         default (DictValue ∅) ((su ∪ d) !! "context") = DictValue context'
         /\ existing_of context' = summary_info r
         /\ _func self (DictInput (su ∪ d))
            = Some (call self msgs context' (summary_info r)).
Proof.
  intros Hfunc Hrun Hkeys Hkey Hout. apply func_step in Hfunc.
  inversion Hfunc as [Hinput|d' Hfields Hmessages|d' messages Hfields Hmessages Hthere Hcontext
                     |d' msgs context Hfields Hmessages Hcontext Hentry Hcall];
    subst; try done.
  injection Hfields as <-.
  apply call_update in Hrun as (r & Hrun & ->).
  exists msgs, context, r. split_and!; [done..|].
  set (su := SummarizationNode.state_update self context r).
  assert ((su ∪ d) !! SummarizationNode.messages_key self = Some (MessagesValue msgs))
    as Hmessages'.
  { rewrite lookup_union_r; [done|]. subst su. unfold SummarizationNode.state_update.
    destruct (summary_info r).
    - rewrite lookup_insert_ne by done. by rewrite lookup_singleton_ne.
    - by rewrite lookup_singleton_ne. }
  destruct (summary_info r) as [s|] eqn:Hs.
  - exists (<["summary_info" := SummaryEntry s]> context).
    assert ((su ∪ d) !! "context"
            = Some (DictValue (<["summary_info" := SummaryEntry s]> context)))
      as Hcontext'.
    { apply lookup_union_Some_l. subst su. unfold SummarizationNode.state_update.
      by rewrite Hs, lookup_insert_eq. }
    split_and!.
    + by rewrite Hcontext'.
    + unfold existing_of. by rewrite lookup_insert_eq.
    + unfold SummarizationNode._func. simpl.
      rewrite Hmessages', Hcontext'. simpl. by rewrite lookup_insert_eq.
  - exists context.
    assert ((su ∪ d) !! "context" = d !! "context") as Hcontext'.
    { apply lookup_union_r. subst su. unfold SummarizationNode.state_update.
      rewrite Hs. by rewrite lookup_singleton_ne. }
    pose proof (no_summary_info_none_given _ _ _ _ _ _ _ _ Hrun Hs) as Hnone.
    split_and!.
    + by rewrite Hcontext'.
    + done.
    + unfold SummarizationNode._func. simpl.
      rewrite Hmessages', Hcontext'.
      destruct (d !! "context") as [c|]; simpl in Hcontext |- *.
      * subst c. unfold existing_of in Hnone.
        destruct (context !! "summary_info") as [[s| |repr]|]; try done.
        by destruct (Hentry repr).
      * injection Hcontext as <-. by rewrite lookup_empty.
Qed.

End Node.

(** ** The further properties at work *)

(** A system message alone, with a summary info given. *)
Lemma nothing_but_a_system_message_witness :
  0 < 6
  /\ ([helpful_assistant] = []
      \/ exists m0, [helpful_assistant] = [m0] /\ type m0 = SystemMessage)
  /\ summarize_messages first_time_model len_counter
       [helpful_assistant] (Some first_summary) 6 0 default_templates fresh
     = (Return {| messages := [helpful_assistant]; summary_info := Some first_summary |},
        logged fresh (carve_log [helpful_assistant])).
Proof.
  assert (0 < 6) as H1 by lia.
  assert ([helpful_assistant] = []
          \/ exists m0, [helpful_assistant] = [m0] /\ type m0 = SystemMessage) as H2
    by (right; exists helpful_assistant; split; reflexivity).
  split; [exact H1|]. split; [exact H2|].
  exact (nothing_but_a_system_message first_time_model len_counter
           [helpful_assistant] (Some first_summary) 6 0 default_templates fresh H1 H2).
Defined.

(** Nine messages against a budget of twenty. *)
Lemma without_summary_messages_unchanged_witness :
  roomy_call = (Return roomy_result, roomy_world)
  /\ (summary_info roomy_result = None <->
      @None SummaryInfo = None /\ invoke_calls roomy_world = invoke_calls fresh)
  /\ (summary_info roomy_result = None -> messages roomy_result = nine_messages).
Proof.
  assert (roomy_call = (Return roomy_result, roomy_world)) as H1
    by (vm_compute; reflexivity).
  split; [exact H1|].
  exact (without_summary_messages_unchanged first_time_model len_counter
           nine_messages None 20 0 default_templates fresh roomy_result roomy_world H1).
Defined.

(** Scenario 4: the system message, the summary, the last five messages. *)
Lemma with_summary_messages_layout_witness :
  working_of with_system_message <> []
  /\ system_message_call = (Return system_message_result, system_message_world)
  /\ summary_info system_message_result
     = Some {| summary := "Summary with system message present.";
               summarized_message_ids := id <$> take 4 nine_messages;
               total_summarized_messages := 4 |}
  /\ let tail := Py.slice_from (working_of with_system_message) 4 in
     messages system_message_result
       = final_prompt default_templates
           (system_placeholder (system_of with_system_message))
           "Summary with system message present." tail
     /\ (default_templates = default_templates ->
         messages system_message_result
         = system_placeholder (system_of with_system_message)
           ++ [system ("Summary of conversation earlier: "
                       +:+ "Summary with system message present.")]
           ++ tail).
Proof.
  assert (working_of with_system_message <> []) as H1 by (vm_compute; discriminate).
  assert (system_message_call = (Return system_message_result, system_message_world))
    as H2 by (vm_compute; reflexivity).
  assert (summary_info system_message_result
          = Some {| summary := "Summary with system message present.";
                    summarized_message_ids := id <$> take 4 nine_messages;
                    total_summarized_messages := 4 |}) as H3
    by (vm_compute; reflexivity).
  split; [exact H1|]. split; [exact H2|]. split; [exact H3|].
  exact (with_summary_messages_layout
           (MockChatModel ["Summary with system message present."]) len_counter
           with_system_message None 6 0 default_templates fresh
           system_message_result system_message_world _ H1 H2 H3).
Defined.

(** Scenario 3: from six to twelve of thirteen. *)
Lemma count_stays_within_the_messages_witness :
  0 <= count_of (Some first_summary)
  /\ second_summary_call = (Return second_summary_result, second_summary_world)
  /\ 0 <= count_of (summary_info second_summary_result)
  /\ (count_of (Some first_summary) <= Py.len (working_of thirteen_messages) ->
      count_of (summary_info second_summary_result)
      <= Py.len (working_of thirteen_messages)).
Proof.
  assert (0 <= count_of (Some first_summary)) as H1 by (vm_compute; discriminate).
  assert (second_summary_call = (Return second_summary_result, second_summary_world))
    as H2 by (vm_compute; reflexivity).
  split; [exact H1|]. split; [exact H2|].
  exact (count_stays_within_the_messages two_summaries_model len_counter
           thirteen_messages (Some first_summary) 6 0 default_templates
           after_first_summary second_summary_result second_summary_world H1 H2).
Defined.

(** Three messages, all three summarized already. *)
Lemma count_past_the_end_witness :
  0 < 6
  /\ working_of three_answers <> []
  /\ Py.len (working_of three_answers) <= count_of (Some all_summarized)
  /\ exists s,
       Some all_summarized = Some s
       /\ summarize_messages first_time_model len_counter
            three_answers (Some all_summarized) 6 0 default_templates fresh
          = (Return {| messages :=
                         final_prompt default_templates
                           (system_placeholder (system_of three_answers)) (summary s) [];
                       summary_info := Some s |},
             logged fresh (carve_log three_answers)).
Proof.
  assert (0 < 6) as H1 by lia.
  assert (working_of three_answers <> []) as H2 by (vm_compute; discriminate).
  assert (Py.len (working_of three_answers) <= count_of (Some all_summarized)) as H3
    by (vm_compute; discriminate).
  split; [exact H1|]. split; [exact H2|]. split; [exact H3|].
  exact (count_past_the_end first_time_model len_counter
           three_answers (Some all_summarized) 6 0 default_templates fresh H1 H2 H3).
Defined.

(** Scenario 1: six messages of one token against a budget of six. *)
Lemma summarized_messages_fit_the_budget_witness :
  0 <= count_of None
  /\ Forall (fun m => 0 <= cost len_counter m) (working_of nine_messages)
  /\ first_time_call = (Return first_time_result, first_time_world)
  /\ invoke_calls first_time_world
     = invoke_calls fresh ++ [DEFAULT_INITIAL_SUMMARY_PROMPT (take 6 nine_messages)]
  /\ exists kept,
       DEFAULT_INITIAL_SUMMARY_PROMPT (take 6 nine_messages)
       = summary_prompt default_templates None kept
       /\ (total_cost len_counter kept <= budget_of len_counter nine_messages 6
           \/ (count_of None = 0
               /\ exists m, kept = [m]
                    /\ working_of nine_messages !! 0%nat = Some m
                    /\ budget_of len_counter nine_messages 6 < cost len_counter m)).
Proof.
  assert (0 <= count_of None) as H1 by (simpl; lia).
  assert (Forall (fun m => 0 <= cost len_counter m) (working_of nine_messages)) as H2
    by (apply Forall_forall; intros m _; vm_compute; discriminate).
  assert (first_time_call = (Return first_time_result, first_time_world)) as H3
    by (vm_compute; reflexivity).
  assert (invoke_calls first_time_world
          = invoke_calls fresh ++ [DEFAULT_INITIAL_SUMMARY_PROMPT (take 6 nine_messages)])
    as H4 by (vm_compute; reflexivity).
  split; [exact H1|]. split; [exact H2|]. split; [exact H3|]. split; [exact H4|].
  exact (summarized_messages_fit_the_budget first_time_model len_counter
           nine_messages None 6 0 default_templates fresh
           (Return first_time_result) first_time_world _ H1 H2 H3 H4).
Defined.

(** Three messages and a count of minus four. *)
Lemma index_error_iff_count_below_minus_len_witness :
  0 < 6
  /\ working_of three_answers <> []
  /\ let run := summarize_messages first_time_model len_counter
                  three_answers (Some far_below) 6 0 default_templates fresh in
     (run.1 = Raise IndexError
      <-> count_of (Some far_below) < - Py.len (working_of three_answers))
     /\ (count_of (Some far_below) < - Py.len (working_of three_answers) ->
         run.2 = logged fresh (carve_log three_answers)).
Proof.
  assert (0 < 6) as H1 by lia.
  assert (working_of three_answers <> []) as H2 by (vm_compute; discriminate).
  split; [exact H1|]. split; [exact H2|].
  exact (index_error_iff_count_below_minus_len first_time_model len_counter
           three_answers (Some far_below) 6 0 default_templates fresh H1 H2).
Defined.

(** Scenario 5, read backwards: the budget error of the long message. *)
Lemma budget_error_only_at_ceiling_witness :
  0 <= count_of None
  /\ summarize_messages first_time_model char_counter
       [long_message] None 6 0 default_templates fresh
     = (Raise (BudgetExceeded 12), logged fresh [[long_message]])
  /\ let unsummarized := drop (Z.to_nat (count_of None)) (working_of [long_message]) in
     12 = budget_of char_counter [long_message] 6 * 2 - 0
     /\ invoke_calls (logged fresh [[long_message]]) = invoke_calls fresh
     /\ exists j, (j < length unsummarized)%nat
          /\ 12 <= total_cost char_counter (take (S j) unsummarized).
Proof.
  assert (0 <= count_of None) as H1 by (simpl; lia).
  assert (summarize_messages first_time_model char_counter
            [long_message] None 6 0 default_templates fresh
          = (Raise (BudgetExceeded 12), logged fresh [[long_message]])) as H2
    by (vm_compute; reflexivity).
  split; [exact H1|]. split; [exact H2|].
  exact (budget_error_only_at_ceiling first_time_model char_counter
           [long_message] None 6 0 default_templates fresh
           (logged fresh [[long_message]]) 12 H1 H2).
Defined.

(** Nine messages against a budget of twenty, from the other side. *)
Lemma under_budget_nothing_summarized_witness :
  0 < 20
  /\ working_of nine_messages <> []
  /\ 0 <= count_of None
  /\ Forall (fun m => 0 <= cost len_counter m)
       (drop (Z.to_nat (count_of None)) (working_of nine_messages))
  /\ 0 < budget_of len_counter nine_messages 20
  /\ total_cost len_counter (drop (Z.to_nat (count_of None)) (working_of nine_messages))
     <= budget_of len_counter nine_messages 20
  /\ summarize_messages first_time_model len_counter
       nine_messages None 20 0 default_templates fresh
     = (Return (assemble default_templates (system_of nine_messages)
                  (working_of nine_messages) None (count_of None)),
        logged fresh
          (carve_log nine_messages
           ++ singles (drop (Z.to_nat (count_of None)) (working_of nine_messages)))).
Proof.
  assert (0 < 20) as H1 by lia.
  assert (working_of nine_messages <> []) as H2 by (vm_compute; discriminate).
  assert (0 <= count_of None) as H3 by (simpl; lia).
  assert (Forall (fun m => 0 <= cost len_counter m)
            (drop (Z.to_nat (count_of None)) (working_of nine_messages))) as H4
    by (apply Forall_forall; intros m _; vm_compute; discriminate).
  assert (0 < budget_of len_counter nine_messages 20) as H5
    by (vm_compute; reflexivity).
  assert (total_cost len_counter
            (drop (Z.to_nat (count_of None)) (working_of nine_messages))
          <= budget_of len_counter nine_messages 20) as H6
    by (vm_compute; discriminate).
  split_and!; [exact H1|exact H2|exact H3|exact H4|exact H5|exact H6|].
  exact (under_budget_nothing_summarized first_time_model len_counter
           nine_messages None 20 0 default_templates fresh H1 H2 H3 H4 H5 H6).
Defined.

(** Three questions against a budget of two. *)
Lemma only_droppable_nothing_summarized_witness :
  0 < 2
  /\ working_of three_questions <> []
  /\ 0 <= count_of None
  /\ Forall (fun m => 0 <= cost len_counter m)
       (drop (Z.to_nat (count_of None)) (working_of three_questions))
  /\ total_cost len_counter (drop (Z.to_nat (count_of None)) (working_of three_questions))
     < budget_of len_counter three_questions 2 * 2 - 0
  /\ Forall (fun m => must_drop m = true)
       (drop (Z.to_nat (count_of None)) (working_of three_questions))
  /\ budget_of len_counter three_questions 2
     < total_cost len_counter (working_of three_questions)
  /\ summarize_messages first_time_model len_counter
       three_questions None 2 0 default_templates fresh
     = (Return (assemble default_templates (system_of three_questions)
                  (working_of three_questions) None (count_of None)),
        logged fresh
          (carve_log three_questions
           ++ singles (drop (Z.to_nat (count_of None)) (working_of three_questions)))).
Proof.
  assert (0 < 2) as H1 by lia.
  assert (working_of three_questions <> []) as H2 by (vm_compute; discriminate).
  assert (0 <= count_of None) as H3 by (simpl; lia).
  assert (Forall (fun m => 0 <= cost len_counter m)
            (drop (Z.to_nat (count_of None)) (working_of three_questions))) as H4
    by (apply Forall_forall; intros m _; vm_compute; discriminate).
  assert (total_cost len_counter
            (drop (Z.to_nat (count_of None)) (working_of three_questions))
          < budget_of len_counter three_questions 2 * 2 - 0) as H5
    by (vm_compute; reflexivity).
  assert (Forall (fun m => must_drop m = true)
            (drop (Z.to_nat (count_of None)) (working_of three_questions))) as H6
    by (repeat constructor).
  assert (budget_of len_counter three_questions 2
          < total_cost len_counter (working_of three_questions)) as H7
    by (vm_compute; reflexivity).
  split_and!; [exact H1|exact H2|exact H3|exact H4|exact H5|exact H6|exact H7|].
  exact (only_droppable_nothing_summarized first_time_model len_counter
           three_questions None 2 0 default_templates fresh H1 H2 H3 H4 H5 H6).
Defined.

(** A number for a context: it has no [get]. *)
Lemma node_fails_before_summarizing_witness :
  SummarizationNode._func first_time_model len_counter default_node
    (DictInput number_for_context)
    = Some (fun w => (Failure AttributeError, w))
  /\ (Failure AttributeError, fresh) = (Failure AttributeError, fresh)
  /\ (forall e0, AttributeError <> Raised e0)
  /\ fresh = fresh
  /\ (AttributeError = InvalidInputType <-> DictInput number_for_context = OtherInput)
  /\ (AttributeError = MissingMessages <->
      exists d, SummarizationNode.fields (DictInput number_for_context) = Some d
        /\ (d !! SummarizationNode.messages_key default_node = None
            \/ d !! SummarizationNode.messages_key default_node = Some NoneValue))
  /\ (AttributeError = AttributeError <->
      exists d messages,
        SummarizationNode.fields (DictInput number_for_context) = Some d
        /\ d !! SummarizationNode.messages_key default_node = Some messages
        /\ messages <> NoneValue
        /\ (d !! "context" = Some NoneValue
            \/ (exists l, d !! "context" = Some (MessagesValue l))
            \/ exists repr, d !! "context" = Some (OtherValue repr false))).
Proof.
  assert (SummarizationNode._func first_time_model len_counter default_node
            (DictInput number_for_context)
          = Some (fun w => (Failure AttributeError, w))) as H1 by reflexivity.
  assert ((fun w : @World nat => (Failure AttributeError, w)) fresh
          = (Failure AttributeError, fresh)) as H2 by reflexivity.
  assert (forall e0, AttributeError <> Raised e0) as H3 by discriminate.
  split; [exact H1|]. split; [exact H2|]. split; [exact H3|].
  exact (node_fails_before_summarizing first_time_model len_counter
           default_node (DictInput number_for_context) _ fresh AttributeError fresh
           H1 H2 H3).
Defined.

(** Scenario 1 through the node that writes the messages elsewhere. *)
Lemma node_update_witness :
  SummarizationNode._func first_time_model len_counter side_node (DictInput nine_in_a_dict)
    = Some side_call
  /\ side_call fresh = (Update side_update, first_time_world)
  /\ exists d msgs context r,
       SummarizationNode.fields (DictInput nine_in_a_dict) = Some d
       /\ d !! SummarizationNode.messages_key side_node = Some (MessagesValue msgs)
       /\ default (DictValue ∅) (d !! "context") = DictValue context
       /\ summarize_messages first_time_model len_counter msgs (existing_of context)
            (SummarizationNode.max_tokens side_node)
            (SummarizationNode.max_summary_tokens side_node)
            (SummarizationNode.templates side_node) fresh = (Return r, first_time_world)
       /\ (summary_info r = None ->
           side_update
           = {[ SummarizationNode.output_messages_key side_node
                := MessagesValue (messages r) ]})
       /\ (forall s, summary_info r = Some s ->
           exists context',
             side_update !! "context" = Some (DictValue context')
             /\ context' !! "summary_info" = Some (SummaryEntry s)
             /\ (forall key, key <> "summary_info" -> context' !! key = context !! key)
             /\ (SummarizationNode.output_messages_key side_node <> "context" ->
                 side_update !! SummarizationNode.output_messages_key side_node
                 = Some (MessagesValue (messages r)))
             /\ (forall key, key <> "context" ->
                 key <> SummarizationNode.output_messages_key side_node ->
                 side_update !! key = None)).
Proof.
  assert (SummarizationNode._func first_time_model len_counter side_node
            (DictInput nine_in_a_dict) = Some side_call) as H1 by reflexivity.
  assert (side_call fresh = (Update side_update, first_time_world)) as H2
    by (vm_compute; reflexivity).
  split; [exact H1|]. split; [exact H2|].
  exact (node_update first_time_model len_counter side_node (DictInput nine_in_a_dict)
           side_call fresh side_update first_time_world H1 H2).
Defined.

(** The same step: one call of the model. *)
Lemma node_adds_no_call_witness :
  SummarizationNode._func first_time_model len_counter side_node (DictInput nine_in_a_dict)
    = Some side_call
  /\ (forall e0 w', side_call fresh = (Failure (Raised e0), w') ->
        exists d msgs context,
          SummarizationNode.fields (DictInput nine_in_a_dict) = Some d
          /\ d !! SummarizationNode.messages_key side_node = Some (MessagesValue msgs)
          /\ default (DictValue ∅) (d !! "context") = DictValue context
          /\ summarize_messages first_time_model len_counter msgs (existing_of context)
               (SummarizationNode.max_tokens side_node)
               (SummarizationNode.max_summary_tokens side_node)
               (SummarizationNode.templates side_node) fresh = (Raise e0, w'))
  /\ (invoke_calls (side_call fresh).2 = invoke_calls fresh
      \/ exists prompt, invoke_calls (side_call fresh).2 = invoke_calls fresh ++ [prompt]).
Proof.
  assert (SummarizationNode._func first_time_model len_counter side_node
            (DictInput nine_in_a_dict) = Some side_call) as H1 by reflexivity.
  split; [exact H1|].
  exact (node_adds_no_call first_time_model len_counter side_node
           (DictInput nine_in_a_dict) side_call fresh H1).
Defined.

(** The same step, and the step after it. *)
Lemma node_reads_back_its_update_witness :
  SummarizationNode._func first_time_model len_counter side_node (DictInput nine_in_a_dict)
    = Some side_call
  /\ side_call fresh = (Update side_update, first_time_world)
  /\ SummarizationNode.messages_key side_node
     <> SummarizationNode.output_messages_key side_node
  /\ SummarizationNode.messages_key side_node <> "context"
  /\ SummarizationNode.output_messages_key side_node <> "context"
  /\ exists msgs context r,
       nine_in_a_dict !! SummarizationNode.messages_key side_node
       = Some (MessagesValue msgs)
       /\ summarize_messages first_time_model len_counter msgs (existing_of context)
            (SummarizationNode.max_tokens side_node)
            (SummarizationNode.max_summary_tokens side_node)
            (SummarizationNode.templates side_node) fresh = (Return r, first_time_world)
       /\ exists context',
            default (DictValue ∅) ((side_update ∪ nine_in_a_dict) !! "context")
            = DictValue context'
            /\ existing_of context' = summary_info r
            /\ SummarizationNode._func first_time_model len_counter side_node
                 (DictInput (side_update ∪ nine_in_a_dict))
               = Some (SummarizationNode.call first_time_model len_counter
                         side_node msgs context' (summary_info r)).
Proof.
  assert (SummarizationNode._func first_time_model len_counter side_node
            (DictInput nine_in_a_dict) = Some side_call) as H1 by reflexivity.
  assert (side_call fresh = (Update side_update, first_time_world)) as H2
    by (vm_compute; reflexivity).
  assert (SummarizationNode.messages_key side_node
          <> SummarizationNode.output_messages_key side_node) as H3 by discriminate.
  assert (SummarizationNode.messages_key side_node <> "context") as H4 by discriminate.
  assert (SummarizationNode.output_messages_key side_node <> "context") as H5
    by discriminate.
  split_and!; [exact H1|exact H2|exact H3|exact H4|exact H5|].
  exact (node_reads_back_its_update first_time_model len_counter side_node
           nine_in_a_dict side_call fresh side_update first_time_world H1 H2 H3 H4 H5).
Defined.

(** * The two collaborators *)

Section Collaborators.
Context {ModelState : Type}.
Variable model_invoke : ModelState -> list BaseMessage -> option string * ModelState.
Variable token_counter : list BaseMessage -> Z.
Local Abbreviation World := (@World ModelState).
Implicit Types (w : World) (msgs : list BaseMessage) (info : option SummaryInfo).

Lemma getitem_elem_of msgs i m : Py.getitem msgs i = Some m -> m ∈ msgs.
Proof.
  unfold Py.getitem. repeat case_bool_decide; [| |done];
    intros Hm; by apply list_elem_of_lookup_2 in Hm.
Qed.

Lemma scan_calls msgs max_tokens max_total_tokens indices :
  forall n_tokens idx w,
  exists calls,
    (scan token_counter msgs max_tokens max_total_tokens indices n_tokens idx w).2
    = logged w calls
    /\ Forall (fun c => exists m, c = [m] /\ m ∈ msgs) calls.
Proof.
  induction indices as [|i indices IH]; intros n_tokens idx w.
  { exists []. by rewrite logged_nil. }
  cbn [scan]. unfold bind at 1, getitem.
  destruct (Py.getitem msgs i) as [m|] eqn:Hm.
  2:{ exists []. by rewrite logged_nil. }
  apply getitem_elem_of in Hm.
  unfold ret at 1. unfold bind at 1, count_tokens at 1. fold (logged w [[m]]).
  case_bool_decide.
  - exists [[m]]. split; [done|]. constructor; [by exists m|constructor].
  - destruct (IH (n_tokens + token_counter [m])
                (if bool_decide (n_tokens + token_counter [m] <= max_tokens)
                 then i else idx) (logged w [[m]])) as (calls & -> & Hcalls).
    exists ([m] :: calls). rewrite logged_logged. split; [done|].
    constructor; [by exists m|done].
Qed.

Lemma working_of_subseteq msgs m : m ∈ working_of msgs -> m ∈ msgs.
Proof.
  unfold working_of. destruct msgs as [|m0 rest]; [done|].
  destruct (is_system m0); [|done]. intros Hm. by apply list_elem_of_further.
Qed.

(** Lines 112, 140: the token counter is only ever called on one message
    of the input at a time -- never on several messages, never on a prompt or
    on a summary. *)
Theorem counter_called_on_single_messages
    msgs info max_tokens max_summary_tokens templates w :
  exists calls,
    counter_calls
      (summarize_messages model_invoke token_counter
         msgs info max_tokens max_summary_tokens templates w).2
    = counter_calls w ++ calls
    /\ Forall (fun c => exists m, c = [m] /\ m ∈ msgs) calls.
Proof.
  destruct (summarize_messages _ _ _ _ _ _ _ w) as [out w'] eqn:Hrun.
  apply summarize_messages_run in Hrun. simpl.
  assert (Forall (fun c => exists m, c = [m] /\ m ∈ msgs) (carve_log msgs)) as Hcarve.
  { unfold carve_log, system_of. destruct msgs as [|m0 rest]; [constructor|].
    destruct (is_system m0); [|constructor].
    constructor; [|constructor]. exists m0. split; [done|]. by left. }
  assert (forall o calls,
            (forall w0, to_summarize token_counter (working_of msgs) (count_of info)
                          (budget_of token_counter msgs max_tokens)
                          max_summary_tokens w0 = (o, logged w0 calls)) ->
            Forall (fun c => exists m, c = [m] /\ m ∈ msgs) calls) as Hscan.
  { intros o calls Hchoice. specialize (Hchoice w).
    destruct (scan_calls (working_of msgs) (budget_of token_counter msgs max_tokens)
                (budget_of token_counter msgs max_tokens * 2 - max_summary_tokens)
                (Py.range (count_of info) (Py.len (working_of msgs)))
                0 (Z.max 0 (count_of info - 1)) w) as (calls' & Hlog & Hcalls).
    unfold to_summarize, bind in Hchoice.
    assert (calls' = calls) as ->.
    { destruct (scan _ _ _ _ _ _ _ w) as [[[n_tokens idx]|e] w1];
        simpl in Hlog; subst w1; apply (f_equal snd) in Hchoice;
        simpl in Hchoice; by apply logged_inj in Hchoice. }
    eapply Forall_impl; [exact Hcalls|].
    intros c (m & -> & Hm). exists m. split; [done|].
    by apply working_of_subseteq. }
  destruct Hrun as [| |e calls|choice calls|kept calls response ms].
  - exists []. by rewrite app_nil_r.
  - by exists (carve_log msgs).
  - exists (carve_log msgs ++ calls). split; [done|].
    apply Forall_app. split; [done|]. by eapply Hscan.
  - exists (carve_log msgs ++ calls). split; [done|].
    apply Forall_app. split; [done|]. by eapply Hscan.
  - exists (carve_log msgs ++ calls). split; [done|].
    apply Forall_app. split; [done|]. by eapply Hscan.
Qed.

(** Lines 191-197: when the model is invoked, it is on the state the call
    found it in; what it answers is the summary returned, and the state it
    moves to is the state left.  When it raises, the call raises, and no
    summary info is returned. *)
Theorem model_answer_becomes_the_summary
    msgs info max_tokens max_summary_tokens templates w out w' prompt :
  summarize_messages model_invoke token_counter
    msgs info max_tokens max_summary_tokens templates w = (out, w') ->
  invoke_calls w' = invoke_calls w ++ [prompt] ->
  exists response,
    model_invoke (model_state w) prompt = (response, model_state w')
    /\ match response with
       | Some text =>
           exists r s, out = Return r /\ summary_info r = Some s /\ summary s = text
       | None => out = Raise ModelError
       end.
Proof.
  intros Hrun Hlog. apply summarize_messages_run in Hrun.
  destruct Hrun as [| | | |kept calls response ms];
    try (symmetry in Hlog; by apply snoc_neq in Hlog).
  simpl in Hlog. apply app_inv_head in Hlog. injection Hlog as <-.
  exists response. split; [done|].
  destruct response as [text|]; [|done].
  by eexists _, _.
Qed.

End Collaborators.

(** Scenario 1: the mock model's first answer. *)
Lemma model_answer_becomes_the_summary_witness :
  first_time_call = (Return first_time_result, first_time_world)
  /\ invoke_calls first_time_world
     = invoke_calls fresh ++ [DEFAULT_INITIAL_SUMMARY_PROMPT (take 6 nine_messages)]
  /\ exists response,
       first_time_model (model_state fresh)
         (DEFAULT_INITIAL_SUMMARY_PROMPT (take 6 nine_messages))
       = (response, model_state first_time_world)
       /\ match response with
          | Some text =>
              exists r s,
                Return first_time_result = Return r
                /\ summary_info r = Some s /\ summary s = text
          | None => Return first_time_result = Raise ModelError
          end.
Proof.
  assert (first_time_call = (Return first_time_result, first_time_world)) as H1
    by (vm_compute; reflexivity).
  assert (invoke_calls first_time_world
          = invoke_calls fresh ++ [DEFAULT_INITIAL_SUMMARY_PROMPT (take 6 nine_messages)])
    as H2 by (vm_compute; reflexivity).
  split; [exact H1|]. split; [exact H2|].
  exact (model_answer_becomes_the_summary first_time_model len_counter
           nine_messages None 6 0 default_templates fresh
           (Return first_time_result) first_time_world _ H1 H2).
Defined.
